(** * AgentCore memory gateway client: embedding and verified properties

    Source: src/agentic_platform/service/memory_gateway/client/memory/
            agentcore_memory_client.py  (class [AgentCoreMemoryClient]).

    The client is Python code that talks to a remote backend through boto3
    clients.  The embedding keeps Python's data (dynamically typed values,
    insertion-ordered dicts), Python's exceptions, and the order of the
    backend calls: every method is a computation in a state-and-exception
    monad over a [world] that records the calls issued so far. *)

From Stdlib Require Import List String Ascii ZArith Lia Bool Arith.
Import ListNotations.
Open Scope string_scope.
Set Warnings "-register-all".

(** ** Python values *)

Module Py.

(** JSON-like values as boto3 hands them to the client.  A [datetime] carries
    whether it is timezone-aware and its position on the time line in
    seconds since 1970-01-01.  A dict is an association list in insertion
    order. *)
Inductive pyval : Type :=
| PNone
| PBool (b : bool)
| PInt (z : Z)
| PStr (s : string)
| PDatetime (aware : bool) (t : Z)
| PList (l : list pyval)
| PDict (d : list (string * pyval)).

Definition dict := list (string * pyval).

(** Exception classes raised by the code under study; all of them derive
    from [Exception], so [except Exception] catches each one.  [Exception]
    itself stands for an error raised by the backend client. *)
Inductive exn_class : Type :=
| Exception | KeyError | IndexError | TypeError | AttributeError
| UnboundLocalError | TimeoutError | ValueError | OverflowError.

Record exn : Type := mkExn { exn_cls : exn_class; exn_arg : string }.

(** [str(e)]: the argument, except that [KeyError] shows the repr of the
    missing key. *)
Definition str_of_exn (e : exn) : string :=
  match exn_cls e with
  | KeyError => "'" ++ exn_arg e ++ "'"
  | _ => exn_arg e
  end.

Inductive outcome (A : Type) : Type :=
| Returned (a : A)
| Raised (e : exn).
Arguments Returned {A} a.
Arguments Raised {A} e.

(** [needle in hay] on strings. *)
Fixpoint str_in (needle hay : string) : bool :=
  if String.prefix needle hay then true
  else match hay with
       | EmptyString => false
       | String _ rest => str_in needle rest
       end.

(** Truth value of an object, as [if x] / [not x] compute it. *)
Definition truthy (v : pyval) : bool :=
  match v with
  | PNone => false
  | PBool b => b
  | PInt z => negb (z =? 0)%Z
  | PStr s => negb (s =? "")
  | PDatetime _ _ => true
  | PList l => match l with [] => false | _ => true end
  | PDict d => match d with [] => false | _ => true end
  end.

Fixpoint dict_get (d : dict) (k : string) : option pyval :=
  match d with
  | [] => None
  | (k', v) :: rest => if k' =? k then Some v else dict_get rest k
  end.

Definition dict_del (d : dict) (k : string) : dict :=
  filter (fun kv => negb (fst kv =? k)) d.

(** [d[k] = v]: overwrite in place when the key exists, append otherwise. *)
Fixpoint dict_set (d : dict) (k : string) (v : pyval) : dict :=
  match d with
  | [] => [(k, v)]
  | (k', v') :: rest =>
      if k' =? k then (k', v) :: rest else (k', v') :: dict_set rest k v
  end.

(** [obj[key]] with a string key. *)
Definition getitem (obj : pyval) (key : string) : outcome pyval :=
  match obj with
  | PDict d => match dict_get d key with
               | Some v => Returned v
               | None => Raised (mkExn KeyError key)
               end
  | PList _ => Raised (mkExn TypeError "list indices must be integers or slices, not str")
  | PStr _ => Raised (mkExn TypeError "string indices must be integers, not 'str'")
  | _ => Raised (mkExn TypeError "object is not subscriptable")
  end.

(** [obj[0]]. *)
Definition getitem0 (obj : pyval) : outcome pyval :=
  match obj with
  | PList (x :: _) => Returned x
  | PList [] => Raised (mkExn IndexError "list index out of range")
  | PStr (String c _) => Returned (PStr (String c EmptyString))
  | PStr EmptyString => Raised (mkExn IndexError "string index out of range")
  | PDict _ => Raised (mkExn KeyError "0")
  | _ => Raised (mkExn TypeError "object is not subscriptable")
  end.

(** [del obj[key]] with a string key; the result is the object afterwards. *)
Definition delitem (obj : pyval) (key : string) : outcome pyval :=
  match obj with
  | PDict d => match dict_get d key with
               | Some _ => Returned (PDict (dict_del d key))
               | None => Raised (mkExn KeyError key)
               end
  | PList _ => Raised (mkExn TypeError "list indices must be integers or slices, not str")
  | _ => Raised (mkExn TypeError "object does not support item deletion")
  end.

(** [obj.get(key, default)]: a dict method. *)
Definition dict_get_default (obj : pyval) (key : string) (default : pyval)
  : outcome pyval :=
  match obj with
  | PDict d => match dict_get d key with
               | Some v => Returned v
               | None => Returned default
               end
  | _ => Raised (mkExn AttributeError "object has no attribute 'get'")
  end.

(** [len(obj)]. *)
Definition py_len (obj : pyval) : outcome nat :=
  match obj with
  | PList l => Returned (List.length l)
  | PDict d => Returned (List.length d)
  | PStr s => Returned (String.length s)
  | _ => Raised (mkExn TypeError "object has no len()")
  end.

(** The items a [for] loop visits. *)
Definition py_iter (obj : pyval) : outcome (list pyval) :=
  match obj with
  | PList l => Returned l
  | PDict d => Returned (map (fun kv => PStr (fst kv)) d)
  | PStr s => Returned (map (fun c => PStr (String c EmptyString)) (list_ascii_of_string s))
  | _ => Raised (mkExn TypeError "object is not iterable")
  end.

(** [a > b].  The client only compares against a datetime, so only the
    cases with a datetime on the right are given: the order of the time line
    between two datetimes of the same awareness, a [TypeError] otherwise. *)
Definition py_gt (a b : pyval) : outcome bool :=
  match a, b with
  | PDatetime a_aware ta, PDatetime b_aware tb =>
      if Bool.eqb a_aware b_aware then Returned (tb <? ta)%Z
      else Raised (mkExn TypeError "can't compare offset-naive and offset-aware datetimes")
  | _, _ => Raised (mkExn TypeError "'>' not supported between these instances")
  end.

(** [x is not None]. *)
Definition is_not_none (v : pyval) : bool :=
  match v with PNone => false | _ => true end.

(** [v == s] for a string literal [s]. *)
Definition eq_str (v : pyval) (s : string) : bool :=
  match v with
  | PStr s' => s' =? s
  | _ => false
  end.

(** [lst[-1]]. *)
Definition list_last {A : Type} (l : list A) : outcome A :=
  match rev l with
  | x :: _ => Returned x
  | [] => Raised (mkExn IndexError "list index out of range")
  end.

End Py.
Import Py.

(** ** The backend and the world *)

(** The remote operations the client invokes, with their keyword
    arguments. *)
Inductive call : Type :=
| GetMemory (memoryId : pyval)
| UpdateMemory (params : dict)
| DeleteMemory (memoryId : pyval)
| ListSessions (args : dict)
| ListEvents (args : dict)
| CreateEvent (args : dict).

(** What the process does that an observer outside can see. *)
Inductive event : Type :=
| Call (c : call)
| Sleep (seconds : Z).

(** The backend is remote and changes on its own: its answer to a call is a
    function of how many calls it has already served and of the call.  This
    is what a scripted test double ([side_effect] lists) provides. *)
Record backend : Type := mkBackend {
  respond : nat -> call -> outcome pyval
}.

(** The module-level global [agentcore_memory_id], the wall clock and the
    events so far (oldest first). *)
Record world : Type := mkWorld {
  agentcore_memory_id : pyval;
  clock : Z;
  trace : list event
}.

Definition is_call (e : event) : bool :=
  match e with Call _ => true | Sleep _ => false end.

Definition is_get_memory (e : event) : bool :=
  match e with Call (GetMemory _) => true | _ => false end.

Definition is_sleep (e : event) : bool :=
  match e with Sleep _ => true | _ => false end.

Definition is_create_event (e : event) : bool :=
  match e with Call (CreateEvent _) => true | _ => false end.

Definition count (p : event -> bool) (tr : list event) : nat :=
  List.length (filter p tr).

Definition ncalls (tr : list event) : nat := count is_call tr.

(** ** The monad: state passing with Python exceptions *)

Definition M (A : Type) : Type := world -> outcome A * world.

Definition ret {A : Type} (a : A) : M A := fun w => (Returned a, w).

Definition raise {A : Type} (e : exn) : M A := fun w => (Raised e, w).

Definition bind {A B : Type} (m : M A) (k : A -> M B) : M B :=
  fun w => match m w with
           | (Returned a, w') => k a w'
           | (Raised e, w') => (Raised e, w')
           end.

Notation "x <- m ;; k" := (bind m (fun x => k))
  (at level 61, m at next level, right associativity).
Notation "m ;;; k" := (bind m (fun _ => k))
  (at level 61, right associativity).

(** A pure operation that may raise. *)
Definition lift {A : Type} (o : outcome A) : M A := fun w => (o, w).

(** [try: body except Exception as e: handler(e)]. *)
Definition try_except {A : Type} (body : M A) (handler : exn -> M A) : M A :=
  fun w => match body w with
           | (Raised e, w') => handler e w'
           | r => r
           end.

Definition record (e : event) (w : world) : world :=
  mkWorld (agentcore_memory_id w) (clock w) (trace w ++ [e]).

(** The longest delay CPython converts: the delay in nanoseconds has to fit
    in 64 bits. *)
Definition sleep_max : Z := 9223372036.

(** [time.sleep(seconds)] for an int: [ValueError] for a negative delay,
    [OverflowError] for one that cannot be converted, and otherwise the
    process sleeps.  Nothing is recorded and no time passes when it
    raises.  For a delay close to [sleep_max] the operating system can
    still refuse the deadline with an error of its own, depending on the
    platform; that is not modelled, and every property below that lets the
    process sleep is stated for delays up to [delay_bound]. *)
Definition sleep (seconds : Z) : M unit :=
  fun w =>
    if (seconds <? 0)%Z then
      (Raised (mkExn ValueError "sleep length must be non-negative"), w)
    else if (sleep_max <? seconds)%Z then
      (Raised (mkExn OverflowError "timestamp too large to convert to C _PyTime_t"), w)
    else
      (Returned tt,
       mkWorld (agentcore_memory_id w) (clock w + seconds) (trace w ++ [Sleep seconds])).

(** The delays the properties of the poll loops are stated for: from no
    delay to a thousand million seconds, far below [sleep_max] and below
    what the clock of the operating system accepts as a deadline. *)
Definition delay_bound : Z := 1000000000.

(** [datetime.now()]: a naive datetime. *)
Definition datetime_now : M pyval :=
  fun w => (Returned (PDatetime false (clock w)), w).

Definition load_global_memory_id : M pyval :=
  fun w => (Returned (agentcore_memory_id w), w).

Definition store_global_memory_id (v : pyval) : M unit :=
  fun w => (Returned tt, mkWorld v (clock w) (trace w)).

(** Python compiles a name that is assigned anywhere in a function body,
    and not declared [global] there, as a local of that function for the
    whole body.  A local is modelled by its slot, [None] until the first
    assignment; loading an empty slot raises [UnboundLocalError]. *)
Definition load_local (name : string) (slot : option pyval) : M pyval :=
  match slot with
  | Some v => ret v
  | None => raise (mkExn UnboundLocalError name)
  end.

(** ** Request and response objects

    The pydantic classes of [agentic_platform.core.models.memory_models] are
    imported by the client but are not part of the source tree. *)

(** Modelled from the spec: [GetSessionContextRequest] and
    [GetMemoriesRequest] (in memory_models, absent) are records with exactly
    the attributes the client reads and writes; [get_session_context] passes
    its own request on to [get_memories], so one record serves both. *)
Record Request : Type := mkRequest {
  session_id : pyval;
  user_id : pyval;
  next_token : pyval;
  limit : pyval
}.

Definition set_session_id (r : Request) (v : pyval) : Request :=
  mkRequest v (user_id r) (next_token r) (limit r).

(** Modelled from the spec: [Message] (in memory_models, absent) has a role
    and structured content blocks (spec section 3). *)
Record Message : Type := mkMessage {
  role : pyval;
  content : pyval
}.

(** Modelled from the spec: [SessionContext] (in memory_models, absent) is
    the projection with a session id, a user id and an ordered sequence of
    messages (spec section 3). *)
Record SessionContext : Type := mkSessionContext {
  sc_session_id : pyval;
  sc_user_id : pyval;
  messages : list Message
}.

(** Modelled from the spec: [Memory] (in memory_models, absent), the event
    record built from an acknowledgement: role and text (spec section 4.5). *)
Record Memory : Type := mkMemory {
  mem_role : pyval;
  mem_content : pyval
}.

(** Modelled from the spec: [CreateMemoryRequest] (in memory_models, absent)
    with the attributes [create_memory] reads. *)
Record CreateMemoryRequest : Type := mkCreateMemoryRequest {
  cm_session_id : pyval;
  cm_user_id : pyval;
  session_context : SessionContext
}.

(** Modelled from the spec: [DeleteAgentCoreMemoryProviderRequest] (in
    memory_models, absent) with the attribute the client reads. *)
Record DeleteRequest : Type := mkDeleteRequest {
  del_memory_id : pyval
}.

(** Modelled from the spec: [UpdateAgentCoreMemoryProviderRequest] (in
    memory_models, absent): an identifier and three optional fields
    (spec section 4.2, Update); an absent field is [PNone]. *)
Record UpdateRequest : Type := mkUpdateRequest {
  upd_memory_id : pyval;
  description : pyval;
  event_expiry_duration : pyval;
  memory_strategies : pyval
}.

(** What [get_session_context] hands back: the [SessionContext] of
    [initialize_session], or [GetSessionContextResponse(results=...)]. *)
Inductive SessionResult : Type :=
| FreshSession (ctx : SessionContext)
| GetSessionContextResponse (results : pyval).

(** ** Scenarios

    Concrete backends, worlds and requests, after the test doubles of
    tests-agentcore. *)

Definition w0 : world := mkWorld (PStr "mem-1") 1700000000 [].

Definition status_response (status : string) : outcome pyval :=
  Returned (PDict [("memory", PDict [("id", PStr "m-123"); ("status", PStr status)])]).

(** The resource never leaves CREATING. *)
Definition be_never_ready : backend :=
  mkBackend (fun _ _ => status_response "CREATING").

(** CREATING once, then ACTIVE. *)
Definition be_ready_second : backend :=
  mkBackend (fun i _ => match i with
                        | O => status_response "CREATING"
                        | _ => status_response "ACTIVE"
                        end).

(** Still there once, then gone. *)
Definition be_gone_second : backend :=
  mkBackend (fun i _ => match i with
                        | O => status_response "DELETING"
                        | _ => Raised (mkExn Exception "Memory not found")
                        end).

(** Gone at the first query. *)
Definition be_gone : backend :=
  mkBackend (fun _ _ => Raised (mkExn Exception "Memory m-123 does not exist")).

(** Two failing queries, then ACTIVE. *)
Definition be_flaky : backend :=
  mkBackend (fun i _ => match i with
                        | 0 => Raised (mkExn Exception "Memory not found")
                        | 1 => Raised (mkExn Exception "Service unavailable")
                        | _ => status_response "ACTIVE"
                        end).

(** Two queries that show CREATING, then ACTIVE. *)
Definition be_slow : backend :=
  mkBackend (fun i _ => match i with
                        | 0 | 1 => status_response "CREATING"
                        | _ => status_response "ACTIVE"
                        end).

Definition sample_event (event_id text : string) : pyval :=
  PDict [("memoryId", PStr "mem-1"); ("actorId", PStr "u1");
         ("sessionId", PStr "s-1"); ("eventId", PStr event_id);
         ("payload", PList [PDict [("conversational",
                                    PDict [("content", PDict [("text", PStr text)]);
                                           ("role", PStr "USER")])]])].

Definition sample_events : list pyval :=
  [sample_event "e-1" "hello"; sample_event "e-2" "again"].

Definition unexpected_call : outcome pyval :=
  Raised (mkExn Exception "unexpected call").

(** Lists two events. *)
Definition be_events : backend :=
  mkBackend (fun _ c => match c with
                        | ListEvents _ => Returned (PDict [("events", PList sample_events)])
                        | _ => unexpected_call
                        end).

(** The acknowledgement of an append: the event echoes the actor id and
    carries the session id the backend assigned. *)
Definition acknowledge (args : dict) : dict :=
  [("event", PDict [("sessionId", PStr "s-new");
                    ("actorId", match dict_get args "actorId" with
                                | Some a => a
                                | None => PNone
                                end);
                    ("eventId", PStr "e-0")])].

(** The actor is unknown to the backend. *)
Definition be_new_actor : backend :=
  mkBackend (fun _ c =>
    match c with
    | ListSessions _ =>
        Raised (mkExn Exception
          "An error occurred (ResourceNotFoundException) when calling the ListSessions operation")
    | CreateEvent args => Returned (PDict (acknowledge args))
    | _ => unexpected_call
    end).

(** The actor is known and has no session. *)
Definition be_no_session : backend :=
  mkBackend (fun _ c =>
    match c with
    | ListSessions _ => Returned (PDict [("sessionSummaries", PList [])])
    | CreateEvent args => Returned (PDict (acknowledge args))
    | _ => unexpected_call
    end).

(** The listing is throttled. *)
Definition be_throttled : backend :=
  mkBackend (fun _ c =>
    match c with
    | ListSessions _ =>
        Raised (mkExn Exception
          "An error occurred (ThrottlingException) when calling the ListSessions operation")
    | _ => unexpected_call
    end).

Definition one_summary (created_at : pyval) : dict :=
  [("sessionId", PStr "s-1"); ("actorId", PStr "u1"); ("createdAt", created_at)].

(** The actor has one session; its events can be listed. *)
Definition be_one_session (created_at : pyval) : backend :=
  mkBackend (fun _ c =>
    match c with
    | ListSessions _ =>
        Returned (PDict [("sessionSummaries", PList [PDict (one_summary created_at)])])
    | ListEvents _ => Returned (PDict [("events", PList sample_events)])
    | _ => unexpected_call
    end).

(** The resource id is cached, so the resolver is not run. *)
Definition no_resolution : M pyval :=
  raise (mkExn Exception "parameter store unavailable").

Definition req_u1 : Request := mkRequest PNone (PStr "u1") PNone (PInt 10).

Definition req_s1 : Request := mkRequest (PStr "s-1") (PStr "u1") PNone (PInt 10).

Definition req_no_message : CreateMemoryRequest :=
  mkCreateMemoryRequest (PStr "s-1") (PStr "u1")
    (mkSessionContext (PStr "s-1") (PStr "u1") []).

Definition req_two_messages : CreateMemoryRequest :=
  mkCreateMemoryRequest (PStr "s-1") (PStr "u1")
    (mkSessionContext (PStr "s-1") (PStr "u1")
       [mkMessage (PStr "user") (PStr "hello");
        mkMessage (PStr "assistant") (PStr "hi there")]).

(** One event that lacks [actorId] after one that is complete. *)
Definition be_incomplete_event : backend :=
  mkBackend (fun _ c =>
    match c with
    | ListEvents _ =>
        Returned (PDict [("events",
                          PList [sample_event "e-1" "hello";
                                 PDict [("memoryId", PStr "mem-1");
                                        ("eventId", PStr "e-2")]])])
    | _ => unexpected_call
    end).

(** Acknowledges an append by sending back the payload it received. *)
Definition be_echo_payload : backend :=
  mkBackend (fun _ c =>
    match c with
    | CreateEvent args =>
        Returned (PDict [("event",
                          PDict [("sessionId", PStr "s-1");
                                 ("payload", match dict_get args "payload" with
                                             | Some p => p
                                             | None => PNone
                                             end)])])
    | _ => unexpected_call
    end).

Definition summary_read (sid : string) (t : Z) : pyval :=
  PDict [("sesssionId", PStr sid); ("createdAt", PDatetime false t)].

(** ** The client *)

Section Client.

Variable be : backend.

(** [_get_agentcore_memory_id] (lines 65-100) resolves the resource id
    through the parameter store and, failing that, provisions a resource.
    It runs only while the global is unset; it is kept abstract here. *)
Variable _get_agentcore_memory_id : M pyval.

(** [datetime.isoformat], a library function on datetimes. *)
Variable isoformat : bool -> Z -> string.

(** A remote call: the backend answers according to the number of calls it
    has served, and the call is recorded. *)
Definition invoke (c : call) : M pyval :=
  fun w => (respond be (ncalls (trace w)) c, record (Call c) w).

(** *** Poll loops (lines 310-407) *)

Definition timeout_creation_msg (memory_id : string) : string :=
  "Memory " ++ memory_id ++ " did not become available within the timeout period".

Definition timeout_deletion_msg (memory_id : string) : string :=
  "Memory " ++ memory_id ++ " was not deleted within the timeout period".

(** [range(1, max_attempts + 1)]. *)
Definition attempts_range (max_attempts : Z) : list Z :=
  map Z.of_nat (seq 1 (Z.to_nat max_attempts)).

(** The [for] loop of [_wait_for_memory_provider_creation] over the
    attempts still to run, followed by the [raise] after the loop.  The body
    of the [try] yields the details when it executes [return], and nothing
    when control falls through to the sleep. *)
Fixpoint creation_loop (memory_id : string) (max_attempts delay_seconds : Z)
    (attempts : list Z) : M pyval :=
  match attempts with
  | [] => raise (mkExn TimeoutError (timeout_creation_msg memory_id))
  | attempt :: rest =>
      found <- try_except
                 (r <- invoke (GetMemory (PStr memory_id)) ;;
                  memory_details <- lift (getitem r "memory") ;;
                  status <- lift (getitem memory_details "status") ;;
                  if eq_str status "ACTIVE"
                  then ret (Some memory_details)
                  else ret None)
                 (fun e =>
                    if str_in "Memory not found" (str_of_exn e)
                       || str_in "does not exist" (str_of_exn e)
                    then ret None
                    else ret None) ;;
      match found with
      | Some memory_details => ret memory_details
      | None =>
          (if (attempt <? max_attempts)%Z then sleep delay_seconds else ret tt) ;;;
          creation_loop memory_id max_attempts delay_seconds rest
      end
  end.

Definition _wait_for_memory_provider_creation (memory_id : string)
    (max_attempts delay_seconds : Z) : M pyval :=
  creation_loop memory_id max_attempts delay_seconds (attempts_range max_attempts).

(** The [for] loop of [_wait_for_memory_provider_deletion].  The client
    passed as first argument is the control-plane client, that is, the
    backend. *)
Fixpoint deletion_loop (memory_id : string) (max_attempts delay_seconds : Z)
    (attempts : list Z) : M pyval :=
  match attempts with
  | [] => raise (mkExn TimeoutError (timeout_deletion_msg memory_id))
  | attempt :: rest =>
      gone <- try_except
                (invoke (GetMemory (PStr memory_id)) ;;; ret false)
                (fun e =>
                   if str_in "Memory not found" (str_of_exn e)
                      || str_in "does not exist" (str_of_exn e)
                   then ret true
                   else ret false) ;;
      if gone : bool then ret (PBool true)
      else
        (if (attempt <? max_attempts)%Z then sleep delay_seconds else ret tt) ;;;
        deletion_loop memory_id max_attempts delay_seconds rest
  end.

Definition _wait_for_memory_provider_deletion (memory_id : string)
    (max_attempts delay_seconds : Z) : M pyval :=
  deletion_loop memory_id max_attempts delay_seconds (attempts_range max_attempts).

(** *** Sessions and events (lines 429-558) *)

Definition init_text : string := "Initializing new AgentCore memory session.".

(** [initialize_session] (lines 429-460). *)
Definition initialize_session (actor_id : pyval) : M SessionContext :=
  let payload :=
    PList [PDict [("conversational",
                   PDict [("content", PDict [("text", PStr init_text)]);
                          ("role", PStr "ASSISTANT")])]] in
  memory_id <- load_global_memory_id ;;
  now <- datetime_now ;;
  r <- invoke (CreateEvent [("memoryId", memory_id); ("actorId", actor_id);
                            ("eventTimestamp", now); ("payload", payload)]) ;;
  event <- lift (getitem r "event") ;;
  sid <- lift (getitem event "sessionId") ;;
  uid <- lift (getitem event "actorId") ;;
  p0 <- lift (getitem0 payload) ;;
  conv <- lift (getitem p0 "conversational") ;;
  cont <- lift (getitem conv "content") ;;
  text <- lift (getitem cont "text") ;;
  ret (mkSessionContext sid uid
         [mkMessage (PStr "assistant")
                    (PList [PDict [("type", PStr "text"); ("text", text)]])]).

(** The [for evt in events] loop of [get_memories].  The events of a parsed
    response are distinct objects, so deleting keys of one leaves the others
    as they are. *)
Fixpoint strip_events (events : list pyval) (context : list pyval)
  : M (list pyval) :=
  match events with
  | [] => ret context
  | evt :: rest =>
      evt1 <- lift (delitem evt "memoryId") ;;
      evt2 <- lift (delitem evt1 "actorId") ;;
      strip_events rest (context ++ [evt2])
  end.

Definition list_events_args (memory_id : pyval) (request : Request) : dict :=
  let args := [("memoryId", memory_id); ("sessionId", session_id request);
               ("actorId", user_id request); ("includePayloads", PBool true);
               ("maxResults", limit request)] in
  if truthy (next_token request)
  then dict_set args "nextToken" (next_token request)
  else args.

(** [get_memories] (lines 511-529). *)
Definition get_memories (request : Request) : M pyval :=
  memory_id <- load_global_memory_id ;;
  r <- invoke (ListEvents (list_events_args memory_id request)) ;;
  events_obj <- lift (getitem r "events") ;;
  events <- lift (py_iter events_obj) ;;
  context <- strip_events events [] ;;
  ret (PList context).

(** The [for session in response['sessionSummaries']] loop of
    [get_session_context] (lines 499-502); note the key read at
    line 501. *)
Fixpoint scan_sessions (sessions : list pyval)
    (most_recent_session_id most_recent_session_time : pyval) : M pyval :=
  match sessions with
  | [] => ret most_recent_session_id
  | session :: rest =>
      created <- lift (getitem session "createdAt") ;;
      newer <- lift (py_gt created most_recent_session_time) ;;
      if newer : bool then
        sid <- lift (getitem session "sesssionId") ;;
        created' <- lift (getitem session "createdAt") ;;
        scan_sessions rest sid created'
      else
        scan_sessions rest most_recent_session_id most_recent_session_time
  end.

(** How a block inside a function ends: by [return], or by falling through
    to the statement after it. *)
Inductive flow (A B : Type) : Type :=
| Return (a : A)
| Fall (b : B).
Arguments Return {A B} a.
Arguments Fall {A B} b.

Definition list_sessions_args (memory_id : pyval) (request : Request) : dict :=
  let args := [("memoryId", memory_id); ("actorId", user_id request)] in
  if truthy (next_token request)
  then dict_set args "nextToken" (next_token request)
  else args.

(** [get_session_context] (lines 462-509).  The local [response] is bound
    only when [list_sessions] returns (line 484); the handler of the inner
    [try] either returns or ends without binding it. *)
Definition get_session_context (request : Request) : M SessionResult :=
  g <- load_global_memory_id ;;
  (if negb (truthy g)
   then v <- _get_agentcore_memory_id ;; store_global_memory_id v
   else ret tt) ;;;
  step <- (if negb (truthy (session_id request)) then
             try_except
               (memory_id <- load_global_memory_id ;;
                inner <- try_except
                           (r <- invoke (ListSessions (list_sessions_args memory_id request)) ;;
                            ret (Fall (Some r)))
                           (fun e =>
                              if str_in "ResourceNotFoundException" (str_of_exn e)
                              then ctx <- initialize_session (user_id request) ;;
                                   ret (Return ctx)
                              else ret (Fall None)) ;;
                match inner with
                | Return ctx => ret (Return ctx)
                | Fall slot =>
                    response <- load_local "response" slot ;;
                    summaries <- lift (dict_get_default response "sessionSummaries" (PList [])) ;;
                    n <- lift (py_len summaries) ;;
                    if (n =? 0)%nat then
                      ctx <- initialize_session (user_id request) ;;
                      ret (Return ctx)
                    else
                      sessions_obj <- lift (getitem response "sessionSummaries") ;;
                      sessions <- lift (py_iter sessions_obj) ;;
                      most_recent <- scan_sessions sessions PNone (PDatetime false 0) ;;
                      ret (Fall (set_session_id request most_recent))
                end)
               (fun e => raise e)
           else ret (Fall request)) ;;
  match step with
  | Return ctx => ret (FreshSession ctx)
  | Fall request' =>
      contexts <- get_memories request' ;;
      ret (GetSessionContextResponse contexts)
  end.

(** [create_memory] (lines 536-558). *)
Definition create_memory (request : CreateMemoryRequest) : M Memory :=
  newest_msg <- lift (list_last (messages (session_context request))) ;;
  memory_id <- load_global_memory_id ;;
  r <- invoke (CreateEvent
                 [("memoryId", memory_id);
                  ("sessionId", cm_session_id request);
                  ("actorId", cm_user_id request);
                  ("payload",
                   PList [PDict [("conversational",
                                  PDict [("content", PDict [("text", content newest_msg)]);
                                         ("role", role newest_msg)])]])]) ;;
  response <- lift (getitem r "event") ;;
  p <- lift (getitem response "payload") ;;
  p0 <- lift (getitem0 p) ;;
  conv <- lift (getitem p0 "conversational") ;;
  r_role <- lift (getitem conv "role") ;;
  p' <- lift (getitem response "payload") ;;
  p0' <- lift (getitem0 p') ;;
  cont <- lift (getitem p0' "content") ;;
  r_text <- lift (getitem cont "text") ;;
  ret (mkMemory r_role r_text).

(** *** Provider management (lines 187-294) *)

(** [delete_memory_provider] (lines 187-216).  Line 204 assigns
    [agentcore_control_client] and the function has no [global] declaration
    for it, so the name read at line 203 is the function's own local, whose
    slot is empty on entry. *)
Definition delete_memory_provider (request : DeleteRequest) : M pyval :=
  let agentcore_control_client : option pyval := None in
  client <- load_local "agentcore_control_client" agentcore_control_client ;;
  (if negb (truthy client) then ret tt else ret tt) ;;;
  try_except
    (invoke (DeleteMemory (del_memory_id request)) ;;;
     ret (del_memory_id request))
    (fun e => raise e).

(** [x.isoformat() if hasattr(x, 'isoformat') else x]. *)
Definition iso_or_self (v : pyval) : pyval :=
  match v with
  | PDatetime aware t => PStr (isoformat aware t)
  | _ => v
  end.

Definition update_params_of (request : UpdateRequest) : dict :=
  let update_params := [("id", upd_memory_id request)] in
  let update_params :=
    if is_not_none (description request)
    then dict_set update_params "description" (description request)
    else update_params in
  let update_params :=
    if is_not_none (event_expiry_duration request)
    then dict_set update_params "eventExpiryDuration" (event_expiry_duration request)
    else update_params in
  if is_not_none (memory_strategies request)
  then dict_set update_params "memoryStrategies" (memory_strategies request)
  else update_params.

(** [update_memory_provider] (lines 218-294); line 237 assigns
    [agentcore_control_client], so the read at line 236 is of an empty
    local slot, as in [delete_memory_provider]. *)
Definition update_memory_provider (request : UpdateRequest) : M pyval :=
  let agentcore_control_client : option pyval := None in
  client <- load_local "agentcore_control_client" agentcore_control_client ;;
  (if negb (truthy client) then ret tt else ret tt) ;;;
  try_except
    (current_memory <- invoke (GetMemory (upd_memory_id request)) ;;
     let update_params := update_params_of request in
     if (1 <? List.length update_params)%nat then
       invoke (UpdateMemory update_params) ;;;
       updated_memory <- invoke (GetMemory (upd_memory_id request)) ;;
       name <- lift (dict_get_default updated_memory "name" PNone) ;;
       descr <- lift (dict_get_default updated_memory "description" (PStr "")) ;;
       expiry <- lift (dict_get_default updated_memory "eventExpiryDuration" PNone) ;;
       strategies <- lift (dict_get_default updated_memory "memoryStrategies" (PList [])) ;;
       created <- lift (dict_get_default updated_memory "createdAt" (PStr "")) ;;
       updated <- lift (dict_get_default updated_memory "updatedAt" (PStr "")) ;;
       ret (PDict [("memoryId", upd_memory_id request);
                   ("name", name);
                   ("description", descr);
                   ("eventExpiryDuration", expiry);
                   ("memoryStrategies", strategies);
                   ("createdAt", iso_or_self created);
                   ("updatedAt", iso_or_self updated)])
     else ret current_memory)
    (fun e => raise e).

(** ** Vocabulary of the properties *)

(** The status query for [memory_id]. *)
Definition status_query (memory_id : string) : call := GetMemory (PStr memory_id).

(** Terminal condition of poll-to-active: the answer carries resource
    details whose status is ACTIVE; these details are what the loop
    returns. *)
Definition active_details (r : outcome pyval) : option pyval :=
  match r with
  | Returned (PDict d) =>
      match dict_get d "memory" with
      | Some (PDict m) =>
          match dict_get m "status" with
          | Some (PStr s) => if s =? "ACTIVE" then Some (PDict m) else None
          | _ => None
          end
      | _ => None
      end
  | _ => None
  end.

(** Terminal condition of poll-to-absent: the query raises an error that
    says the resource is not there. *)
Definition reports_absent (r : outcome pyval) : bool :=
  match r with
  | Raised e =>
      str_in "Memory not found" (str_of_exn e) || str_in "does not exist" (str_of_exn e)
  | Returned _ => false
  end.

(** A well-formed answer of the status query whose status is not ACTIVE. *)
Definition pending_status (r : outcome pyval) : Prop :=
  exists d m s,
    r = Returned (PDict d) /\ dict_get d "memory" = Some (PDict m) /\
    dict_get m "status" = Some (PStr s) /\ (s =? "ACTIVE") = false.

(** The answers of one backend are those of another, except that where the
    first raises an error the second shows a status that is not ACTIVE. *)
Definition errors_for_pending (r1 r2 : outcome pyval) : Prop :=
  r1 = r2 \/ ((exists e, r1 = Raised e) /\ pending_status r2).

(** An answer that does not end the creation wait: an error, whatever it
    says, or a status that is not ACTIVE. *)
Definition error_or_pending (r : outcome pyval) : Prop :=
  (exists e, r = Raised e) \/ pending_status r.

(** An answer whose [memory] entry is [m], with status ACTIVE. *)
Definition shows_active (r : outcome pyval) (m : dict) : Prop :=
  exists resp,
    r = Returned (PDict resp) /\ dict_get resp "memory" = Some (PDict m) /\
    dict_get m "status" = Some (PStr "ACTIVE").

(** [j] rounds of "check, then sleep". *)
Fixpoint rounds (memory_id : string) (delay_seconds : Z) (j : nat) : list event :=
  match j with
  | O => []
  | S j' => Call (status_query memory_id) :: Sleep delay_seconds
            :: rounds memory_id delay_seconds j'
  end.

(** The events of a poll that ends with its [k]-th check. *)
Definition poll_events (memory_id : string) (delay_seconds : Z) (k : nat) : list event :=
  rounds memory_id delay_seconds (k - 1) ++ [Call (status_query memory_id)].

(** The world once a poll has ended with its [k]-th check. *)
Definition after_poll (w : world) (memory_id : string) (delay_seconds : Z) (k : nat) : world :=
  mkWorld (agentcore_memory_id w)
          (clock w + Z.of_nat (k - 1) * delay_seconds)
          (trace w ++ poll_events memory_id delay_seconds k).

(** From [w] to [w'] the process issued exactly [checks] status queries and
    slept exactly [sleeps] times, did nothing else, and ended on a status
    query. *)
Definition polled (memory_id : string) (w w' : world) (checks sleeps : nat) : Prop :=
  exists evs : list event,
    trace w' = (trace w ++ evs ++ [Call (status_query memory_id)])%list /\
    count is_get_memory (evs ++ [Call (status_query memory_id)])%list = checks /\
    count is_sleep (evs ++ [Call (status_query memory_id)])%list = sleeps /\
    List.length (evs ++ [Call (status_query memory_id)])%list = checks + sleeps.

(** An event as the backend lists it: a dict that carries the two routing
    fields. *)
Definition has_routing_fields (evt : pyval) : bool :=
  match evt with
  | PDict d =>
      match dict_get d "memoryId", dict_get d "actorId" with
      | Some _, Some _ => true
      | _, _ => false
      end
  | _ => false
  end.

(** The arguments of the append issued by [initialize_session]. *)
Definition init_event_args (w : world) (actor_id : pyval) : dict :=
  [("memoryId", agentcore_memory_id w); ("actorId", actor_id);
   ("eventTimestamp", PDatetime false (clock w));
   ("payload",
    PList [PDict [("conversational",
                   PDict [("content", PDict [("text", PStr init_text)]);
                          ("role", PStr "ASSISTANT")])]])].

(** The context of a freshly initialized session. *)
Definition fresh_context (sid uid : pyval) : SessionContext :=
  mkSessionContext sid uid
    [mkMessage (PStr "assistant")
               (PList [PDict [("type", PStr "text"); ("text", PStr init_text)]])].

(** The session listing says that the actor has no session: the actor is
    not found, or the listing holds no summary. *)
Definition no_session (r : outcome pyval) : Prop :=
  (exists e, r = Raised e /\ str_in "ResourceNotFoundException" (str_of_exn e) = true)
  \/ (exists resp, r = Returned (PDict resp) /\
        (dict_get resp "sessionSummaries" = Some (PList []) \/
         dict_get resp "sessionSummaries" = None)).

(** What the loop of [get_memories] leaves of one event. *)
Definition stripped (evt : pyval) : pyval :=
  match evt with
  | PDict d => PDict (dict_del (dict_del d "memoryId") "actorId")
  | _ => evt
  end.

(** A summary from which the scan of [get_session_context] can read an id
    and a naive creation time, under the keys the scan uses. *)
Definition scan_reads (session : pyval) (it : pyval * Z) : Prop :=
  exists d,
    session = PDict d /\
    dict_get d "sesssionId" = Some (fst it) /\
    dict_get d "createdAt" = Some (PDatetime false (snd it)).

(** The arguments of the append issued by [create_memory] for a message. *)
Definition append_args (w : world) (request : CreateMemoryRequest) (msg : Message) : dict :=
  [("memoryId", agentcore_memory_id w);
   ("sessionId", cm_session_id request);
   ("actorId", cm_user_id request);
   ("payload",
    PList [PDict [("conversational",
                   PDict [("content", PDict [("text", content msg)]);
                          ("role", role msg)])]])].

(** ** Basic facts *)

Lemma count_app (p : event -> bool) (a b : list event) :
  count p (a ++ b) = count p a + count p b.
Proof.
  unfold count. rewrite filter_app, length_app. reflexivity.
Qed.

Lemma ncalls_record_call (c : call) (w : world) :
  ncalls (trace (record (Call c) w)) = S (ncalls (trace w)).
Proof.
  unfold ncalls; simpl. rewrite count_app. unfold count; simpl. lia.
Qed.

Lemma count_rounds_checks (mid : string) (d : Z) (j : nat) :
  count is_get_memory (rounds mid d j) = j.
Proof.
  induction j as [|j IH]; [reflexivity|].
  unfold count in *; simpl. now rewrite IH.
Qed.

Lemma count_rounds_sleeps (mid : string) (d : Z) (j : nat) :
  count is_sleep (rounds mid d j) = j.
Proof.
  induction j as [|j IH]; [reflexivity|].
  unfold count in *; simpl. now rewrite IH.
Qed.

Lemma poll_events_checks (mid : string) (d : Z) (k : nat) :
  1 <= k -> count is_get_memory (poll_events mid d k) = k.
Proof.
  intros Hk. unfold poll_events. rewrite count_app, count_rounds_checks.
  unfold count; simpl. lia.
Qed.

Lemma poll_events_sleeps (mid : string) (d : Z) (k : nat) :
  count is_sleep (poll_events mid d k) = k - 1.
Proof.
  unfold poll_events. rewrite count_app, count_rounds_sleeps.
  unfold count; simpl. lia.
Qed.

Lemma prefix_app (a b : string) : String.prefix a (a ++ b) = true.
Proof.
  induction a as [|c a IH]; simpl; [now destruct b|].
  destruct (Ascii.ascii_dec c c) as [_|N]; [exact IH | now elim N].
Qed.

Lemma str_in_prefix (x hay : string) :
  String.prefix x hay = true -> str_in x hay = true.
Proof.
  intros H. destruct hay; unfold str_in; rewrite H; reflexivity.
Qed.

Lemma str_in_app (x post : string) : str_in x (x ++ post) = true.
Proof.
  apply str_in_prefix, prefix_app.
Qed.

Lemma str_in_middle (pre x post : string) : str_in x (pre ++ x ++ post) = true.
Proof.
  induction pre as [|c pre IH]; [simpl; apply str_in_app|].
  change ((String c pre) ++ x ++ post) with (String c (pre ++ x ++ post)).
  change (str_in x (String c (pre ++ x ++ post)))
    with (if String.prefix x (String c (pre ++ x ++ post)) then true
          else str_in x (pre ++ x ++ post)).
  rewrite IH. now destruct (String.prefix x (String c (pre ++ x ++ post))).
Qed.

Lemma sleep_within_bound (d : Z) (w : world) :
  (0 <= d <= delay_bound)%Z ->
  sleep d w
  = (Returned tt, mkWorld (agentcore_memory_id w) (clock w + d) (trace w ++ [Sleep d])).
Proof.
  intros [Hlo Hhi]. unfold sleep.
  replace (d <? 0)%Z with false by (symmetry; apply Z.ltb_ge; lia).
  replace (sleep_max <? d)%Z with false
    by (symmetry; apply Z.ltb_ge; unfold sleep_max, delay_bound in *; lia).
  reflexivity.
Qed.

Lemma after_poll_next (w : world) (mid : string) (d : Z) (p : nat) :
  after_poll (mkWorld (agentcore_memory_id (record (Call (status_query mid)) w))
                      (clock (record (Call (status_query mid)) w) + d)
                      (trace (record (Call (status_query mid)) w) ++ [Sleep d]))
             mid d (S p)
  = after_poll w mid d (S (S p)).
Proof.
  unfold after_poll, poll_events, record.
  replace (S (S p) - 1) with (S p) by lia.
  replace (S p - 1) with p by lia.
  cbn [agentcore_memory_id clock trace rounds].
  f_equal.
  - rewrite Nat2Z.inj_succ. lia.
  - rewrite <- !app_assoc. reflexivity.
Qed.

Lemma after_poll_first (w : world) (mid : string) (d : Z) :
  record (Call (status_query mid)) w = after_poll w mid d 1.
Proof.
  unfold after_poll, poll_events, record.
  cbn [Nat.sub rounds app Z.of_nat]. f_equal. lia.
Qed.

Lemma ncalls_after_round (w : world) (c : call) (d : Z) :
  ncalls (trace (record (Call c) w) ++ [Sleep d]) = S (ncalls (trace w)).
Proof.
  unfold ncalls, record; cbn [trace]. rewrite !count_app.
  unfold count; simpl. lia.
Qed.

(** *** The shape shared by the two poll loops

    Both [for] loops are bounded retries around one status query; they
    differ in what they take as terminal and in the error raised at the end.
    The facts about counting are proved once, for any loop with the two
    unfolding equations below. *)
Section PollShape.

Variable memory_id : string.
Variables max_attempts delay_seconds : Z.
Variable classify : outcome pyval -> option pyval.
Variable timeout : exn.
Variable loop : list Z -> M pyval.

Hypothesis delay_ok : (0 <= delay_seconds <= delay_bound)%Z.

Hypothesis loop_nil : forall w, loop [] w = (Raised timeout, w).

Hypothesis loop_cons : forall attempt rest w,
  loop (attempt :: rest) w =
  match classify (respond be (ncalls (trace w)) (status_query memory_id)) with
  | Some v => (Returned v, record (Call (status_query memory_id)) w)
  | None =>
      ((if (attempt <? max_attempts)%Z then sleep delay_seconds else ret tt) ;;;
       loop rest) (record (Call (status_query memory_id)) w)
  end.

Lemma shape_found : forall p len a w v,
  p < len ->
  Z.of_nat (a + len) = (max_attempts + 1)%Z ->
  (forall j, j < p ->
     classify (respond be (ncalls (trace w) + j) (status_query memory_id)) = None) ->
  classify (respond be (ncalls (trace w) + p) (status_query memory_id)) = Some v ->
  loop (map Z.of_nat (seq a len)) w
  = (Returned v, after_poll w memory_id delay_seconds (S p)).
Proof.
  induction p as [|p IH]; intros len a w v Hlt Hlen Hpend Hterm;
    (destruct len as [|len]; [lia|]); cbn [seq map]; rewrite loop_cons.
  - rewrite Nat.add_0_r in Hterm. rewrite Hterm.
    now rewrite (after_poll_first w memory_id delay_seconds).
  - pose proof (Hpend 0 ltac:(lia)) as H0. rewrite Nat.add_0_r in H0. rewrite H0.
    assert (Hlast : (Z.of_nat a <? max_attempts)%Z = true) by (apply Z.ltb_lt; lia).
    rewrite Hlast. unfold bind at 1. rewrite (sleep_within_bound _ _ delay_ok).
    rewrite (IH len (S a) _ v); try lia.
    + now rewrite after_poll_next.
    + intros j Hj. cbn [trace]. rewrite ncalls_after_round.
      replace (S (ncalls (trace w)) + j) with (ncalls (trace w) + S j) by lia.
      apply Hpend; lia.
    + cbn [trace]. rewrite ncalls_after_round.
      replace (S (ncalls (trace w)) + p) with (ncalls (trace w) + S p) by lia.
      exact Hterm.
Qed.

Lemma shape_timeout : forall len a w,
  Z.of_nat (a + S len) = (max_attempts + 1)%Z ->
  (forall j, j < S len ->
     classify (respond be (ncalls (trace w) + j) (status_query memory_id)) = None) ->
  loop (map Z.of_nat (seq a (S len))) w
  = (Raised timeout, after_poll w memory_id delay_seconds (S len)).
Proof.
  induction len as [|len IH]; intros a w Hlen Hpend;
    pose proof (Hpend 0 ltac:(lia)) as H0; rewrite Nat.add_0_r in H0;
    cbn [seq map]; rewrite loop_cons, H0.
  - assert (Hlast : (Z.of_nat a <? max_attempts)%Z = false) by (apply Z.ltb_ge; lia).
    rewrite Hlast. unfold bind, ret. rewrite loop_nil.
    now rewrite (after_poll_first w memory_id delay_seconds).
  - assert (Hlast : (Z.of_nat a <? max_attempts)%Z = true) by (apply Z.ltb_lt; lia).
    rewrite Hlast. unfold bind at 1. rewrite (sleep_within_bound _ _ delay_ok).
    change (loop (Z.of_nat (S a) :: map Z.of_nat (seq (S (S a)) len)))
      with (loop (map Z.of_nat (seq (S a) (S len)))).
    rewrite (IH (S a)); try lia.
    + now rewrite after_poll_next.
    + intros j Hj. cbn [trace]. rewrite ncalls_after_round.
      replace (S (ncalls (trace w)) + j) with (ncalls (trace w) + S j) by lia.
      apply Hpend; lia.
Qed.

End PollShape.

(** *** The two loops have the shared shape *)

Lemma creation_loop_cons (mid : string) (n d attempt : Z) (rest : list Z) (w : world) :
  creation_loop mid n d (attempt :: rest) w =
  match active_details (respond be (ncalls (trace w)) (status_query mid)) with
  | Some v => (Returned v, record (Call (status_query mid)) w)
  | None =>
      ((if (attempt <? n)%Z then sleep d else ret tt) ;;;
       creation_loop mid n d rest) (record (Call (status_query mid)) w)
  end.
Proof.
  cbn [creation_loop]. unfold bind at 1. unfold try_except, bind, invoke, status_query.
  destruct (respond be (ncalls (trace w)) (GetMemory (PStr mid))) as [v|e].
  - unfold active_details, lift, getitem.
    destruct v as [| | | | |l|dm]; try reflexivity.
    destruct (dict_get dm "memory") as [m|]; [|reflexivity].
    destruct m as [| | | | |l|ds]; try reflexivity.
    destruct (dict_get ds "status") as [st|]; [|reflexivity].
    destruct st as [| | |s| | |]; try reflexivity.
    unfold eq_str. destruct (s =? "ACTIVE"); reflexivity.
  - unfold active_details.
    destruct (str_in "Memory not found" (str_of_exn e) || str_in "does not exist" (str_of_exn e));
      reflexivity.
Qed.

Lemma deletion_loop_cons (mid : string) (n d attempt : Z) (rest : list Z) (w : world) :
  deletion_loop mid n d (attempt :: rest) w =
  match (if reports_absent (respond be (ncalls (trace w)) (status_query mid))
         then Some (PBool true) else None) with
  | Some v => (Returned v, record (Call (status_query mid)) w)
  | None =>
      ((if (attempt <? n)%Z then sleep d else ret tt) ;;;
       deletion_loop mid n d rest) (record (Call (status_query mid)) w)
  end.
Proof.
  cbn [deletion_loop]. unfold bind at 1. unfold try_except, bind, invoke, status_query.
  destruct (respond be (ncalls (trace w)) (GetMemory (PStr mid))) as [v|e].
  - reflexivity.
  - unfold reports_absent.
    destruct (str_in "Memory not found" (str_of_exn e) || str_in "does not exist" (str_of_exn e));
      reflexivity.
Qed.

Lemma after_poll_polled (mid : string) (d : Z) (w : world) (k : nat) :
  1 <= k -> polled mid w (after_poll w mid d k) k (k - 1).
Proof.
  intros Hk. exists (rounds mid d (k - 1)). fold (poll_events mid d k).
  repeat split.
  - now apply poll_events_checks.
  - apply poll_events_sleeps.
  - unfold poll_events. rewrite length_app. simpl.
    assert (H : forall j, List.length (rounds mid d j) = j + j).
    { induction j as [|j IH]; simpl; [reflexivity | rewrite IH; lia]. }
    rewrite H. lia.
Qed.

(** ** Poll loops: time-out and termination *)

(** C2. With [max_attempts = n >= 1] and a delay the process can sleep, a
    poll loop (poll-to-active for creation, poll-to-absent for deletion)
    whose status queries never show its terminal condition issues exactly
    [n] status queries and sleeps exactly [n - 1] times, then raises
    [TimeoutError] with a message in which the resource id occurs. *)
Theorem poll_timeout (mid : string) (n d : Z) (w : world) :
  (1 <= n)%Z ->
  (0 <= d <= delay_bound)%Z ->
  ((forall j, j < Z.to_nat n ->
      active_details (respond be (ncalls (trace w) + j) (status_query mid)) = None) ->
   exists w',
     _wait_for_memory_provider_creation mid n d w
     = (Raised (mkExn TimeoutError (timeout_creation_msg mid)), w') /\
     polled mid w w' (Z.to_nat n) (Z.to_nat n - 1)) /\
  ((forall j, j < Z.to_nat n ->
      reports_absent (respond be (ncalls (trace w) + j) (status_query mid)) = false) ->
   exists w',
     _wait_for_memory_provider_deletion mid n d w
     = (Raised (mkExn TimeoutError (timeout_deletion_msg mid)), w') /\
     polled mid w w' (Z.to_nat n) (Z.to_nat n - 1)) /\
  str_in mid (timeout_creation_msg mid) = true /\
  str_in mid (timeout_deletion_msg mid) = true.
Proof.
  intros Hn Hd.
  destruct (Z.to_nat n) as [|len] eqn:En; [lia|].
  split; [|split; [|split]].
  - intros Hpend. exists (after_poll w mid d (S len)). split.
    + unfold _wait_for_memory_provider_creation, attempts_range. rewrite En.
      apply (shape_timeout mid n d active_details
               (mkExn TimeoutError (timeout_creation_msg mid))
               (creation_loop mid n d) Hd).
      * reflexivity.
      * intros; apply creation_loop_cons.
      * lia.
      * exact Hpend.
    + apply after_poll_polled; lia.
  - intros Hpend. exists (after_poll w mid d (S len)). split.
    + unfold _wait_for_memory_provider_deletion, attempts_range. rewrite En.
      apply (shape_timeout mid n d
               (fun r => if reports_absent r then Some (PBool true) else None)
               (mkExn TimeoutError (timeout_deletion_msg mid))
               (deletion_loop mid n d) Hd).
      * reflexivity.
      * intros; apply deletion_loop_cons.
      * lia.
      * intros j Hj. now rewrite Hpend.
    + apply after_poll_polled; lia.
  - apply (str_in_middle "Memory " mid).
  - apply (str_in_middle "Memory " mid).
Qed.

(** C3. For [1 <= k <= max_attempts] and a delay the process can sleep, a
    poll loop whose [k]-th status query is the first to show its terminal
    condition returns right after that query, having slept exactly [k - 1]
    times: the creation wait returns the details, the deletion wait returns
    [True]; in particular the deletion wait returns [True] after one query
    and no sleep when the first query raises an error saying "does not
    exist". *)
Theorem poll_returns_at_first_terminal (mid : string) (n d : Z) (w : world) (k : nat) :
  1 <= k -> (Z.of_nat k <= n)%Z ->
  (0 <= d <= delay_bound)%Z ->
  (forall details,
     (forall j, j < k - 1 ->
        active_details (respond be (ncalls (trace w) + j) (status_query mid)) = None) ->
     active_details (respond be (ncalls (trace w) + (k - 1)) (status_query mid))
     = Some details ->
     exists w',
       _wait_for_memory_provider_creation mid n d w = (Returned details, w') /\
       polled mid w w' k (k - 1)) /\
  ((forall j, j < k - 1 ->
      reports_absent (respond be (ncalls (trace w) + j) (status_query mid)) = false) ->
   reports_absent (respond be (ncalls (trace w) + (k - 1)) (status_query mid)) = true ->
   exists w',
     _wait_for_memory_provider_deletion mid n d w = (Returned (PBool true), w') /\
     polled mid w w' k (k - 1)) /\
  (forall e,
     respond be (ncalls (trace w)) (status_query mid) = Raised e ->
     str_in "does not exist" (str_of_exn e) = true ->
     _wait_for_memory_provider_deletion mid n d w
     = (Returned (PBool true), record (Call (status_query mid)) w) /\
     polled mid w (record (Call (status_query mid)) w) 1 0).
Proof.
  intros Hk Hkn Hd.
  assert (Hlen : Z.of_nat (1 + Z.to_nat n) = (n + 1)%Z) by lia.
  assert (Hsk : S (k - 1) = k) by lia.
  split; [|split].
  - intros details Hpend Hterm. exists (after_poll w mid d k). split.
    + unfold _wait_for_memory_provider_creation, attempts_range.
      rewrite <- Hsk at 1.
      apply (shape_found mid n d active_details (creation_loop mid n d) Hd);
        try assumption.
      * intros; apply creation_loop_cons.
      * lia.
    + now apply after_poll_polled.
  - intros Hpend Hterm. exists (after_poll w mid d k). split.
    + unfold _wait_for_memory_provider_deletion, attempts_range.
      rewrite <- Hsk at 1.
      apply (shape_found mid n d
               (fun r => if reports_absent r then Some (PBool true) else None)
               (deletion_loop mid n d) Hd).
      * intros; apply deletion_loop_cons.
      * lia.
      * exact Hlen.
      * intros j Hj. now rewrite Hpend.
      * now rewrite Hterm.
    + now apply after_poll_polled.
  - intros e He Hmsg. rewrite (after_poll_first w mid d). split.
    + unfold _wait_for_memory_provider_deletion, attempts_range.
      apply (shape_found mid n d
               (fun r => if reports_absent r then Some (PBool true) else None)
               (deletion_loop mid n d) Hd).
      * intros; apply deletion_loop_cons.
      * lia.
      * exact Hlen.
      * intros j Hj; lia.
      * rewrite Nat.add_0_r, He. unfold reports_absent. rewrite Hmsg.
        now rewrite orb_true_r.
    + apply (after_poll_polled mid d w 1). lia.
Qed.

(** ** Event listing *)

Lemma dict_get_del_same (d : dict) (k : string) : dict_get (dict_del d k) k = None.
Proof.
  induction d as [|[k' v] d IH]; [reflexivity|].
  unfold dict_del in *; cbn [filter fst].
  destruct (k' =? k) eqn:E; cbn [negb]; [exact IH|].
  cbn [dict_get]. now rewrite E.
Qed.

Lemma dict_get_del_other (d : dict) (k k' : string) :
  k <> k' -> dict_get (dict_del d k) k' = dict_get d k'.
Proof.
  intros Hne. induction d as [|[k0 v] d IH]; [reflexivity|].
  unfold dict_del in *; cbn [filter fst].
  destruct (k0 =? k) eqn:E; cbn [negb dict_get].
  - apply String.eqb_eq in E; subst k0.
    destruct (k =? k') eqn:E'; [apply String.eqb_eq in E'; contradiction | exact IH].
  - destruct (k0 =? k'); [reflexivity | exact IH].
Qed.

Lemma strip_events_map (events : list pyval) :
  forallb has_routing_fields events = true ->
  forall context w,
    strip_events events context w = (Returned (context ++ map stripped events)%list, w).
Proof.
  induction events as [|evt rest IH]; intros Hwf context w.
  - cbn. now rewrite app_nil_r.
  - cbn [forallb] in Hwf. apply andb_true_iff in Hwf as [Hevt Hrest].
    destruct evt as [| | | | | |d]; try discriminate Hevt.
    cbn [has_routing_fields] in Hevt.
    destruct (dict_get d "memoryId") eqn:Em; [|discriminate].
    destruct (dict_get d "actorId") eqn:Ea; [|discriminate].
    cbn [strip_events]. unfold bind at 1. unfold lift at 1. cbn [delitem]. rewrite Em.
    unfold bind at 1. unfold lift at 1. cbn [delitem].
    rewrite dict_get_del_other by discriminate. rewrite Ea.
    rewrite IH by exact Hrest. cbn [map stripped].
    now rewrite <- app_assoc.
Qed.

(** C5. When the backend answers [list_events] with events that each carry
    [memoryId] and [actorId], [get_memories] returns a list of the same
    length, in the same order, whose [i]-th element is the [i]-th event
    without these two keys and with every other key as it was. *)
Theorem get_memories_strips_routing_fields
    (request : Request) (w : world) (resp : dict) (events : list pyval) :
  respond be (ncalls (trace w))
          (ListEvents (list_events_args (agentcore_memory_id w) request))
  = Returned (PDict resp) ->
  dict_get resp "events" = Some (PList events) ->
  forallb has_routing_fields events = true ->
  exists out,
    get_memories request w
    = (Returned (PList out),
       record (Call (ListEvents (list_events_args (agentcore_memory_id w) request))) w) /\
    List.length out = List.length events /\
    forall i d, nth_error events i = Some (PDict d) ->
      exists d',
        nth_error out i = Some (PDict d') /\
        d' = filter (fun kv => negb (fst kv =? "memoryId") && negb (fst kv =? "actorId")) d /\
        dict_get d' "memoryId" = None /\
        dict_get d' "actorId" = None /\
        forall k, k <> "memoryId" -> k <> "actorId" -> dict_get d' k = dict_get d k.
Proof.
  intros Hresp Hev Hwf. exists (map stripped events). repeat split.
  - unfold get_memories, bind, load_global_memory_id, invoke, lift.
    rewrite Hresp. cbn [getitem]. rewrite Hev. cbn [py_iter].
    now rewrite strip_events_map.
  - apply length_map.
  - intros i d Hi. exists (dict_del (dict_del d "memoryId") "actorId"). repeat split.
    + rewrite nth_error_map, Hi. reflexivity.
    + unfold dict_del. clear. induction d as [|[k v] d IH]; [reflexivity|].
      cbn [filter fst]. destruct (k =? "memoryId"); cbn [negb andb]; [exact IH|].
      cbn [filter fst]. destruct (k =? "actorId"); cbn [negb]; [exact IH|].
      now rewrite IH.
    + rewrite dict_get_del_other by discriminate. apply dict_get_del_same.
    + apply dict_get_del_same.
    + intros k Hm Ha. rewrite !dict_get_del_other; auto.
Qed.

(** ** Session resolution *)

Lemma initialize_session_acknowledged
    (actor_id : pyval) (w : world) (ack ev : dict) (sid uid : pyval) :
  respond be (ncalls (trace w)) (CreateEvent (init_event_args w actor_id))
  = Returned (PDict ack) ->
  dict_get ack "event" = Some (PDict ev) ->
  dict_get ev "sessionId" = Some sid ->
  dict_get ev "actorId" = Some uid ->
  initialize_session actor_id w
  = (Returned (fresh_context sid uid),
     record (Call (CreateEvent (init_event_args w actor_id))) w).
Proof.
  intros Hack Hev Hsid Huid.
  unfold initialize_session, bind, load_global_memory_id, datetime_now, invoke, lift.
  fold (init_event_args w actor_id). rewrite Hack.
  cbn [getitem]. rewrite Hev. cbn [getitem]. rewrite Hsid, Huid.
  reflexivity.
Qed.

(** C6. When the listing of sessions says that the actor is not found, or
    holds no summary, and the backend acknowledges the append with an event
    that carries a session id and the actor id it was given,
    [get_session_context] issues the listing and then exactly one
    [create_event] call, and returns a fresh context: the user id is the
    requested actor id and the only message has role "assistant" and the
    fixed initialization text. *)
Theorem get_session_context_initializes
    (request : Request) (w : world) (ack ev : dict) (sid : pyval) :
  truthy (agentcore_memory_id w) = true ->
  truthy (session_id request) = false ->
  no_session (respond be (ncalls (trace w))
                (ListSessions (list_sessions_args (agentcore_memory_id w) request))) ->
  respond be (S (ncalls (trace w))) (CreateEvent (init_event_args w (user_id request)))
  = Returned (PDict ack) ->
  dict_get ack "event" = Some (PDict ev) ->
  dict_get ev "sessionId" = Some sid ->
  dict_get ev "actorId" = Some (user_id request) ->
  exists ctx w',
    get_session_context request w = (Returned (FreshSession ctx), w') /\
    trace w' = (trace w ++
                [Call (ListSessions (list_sessions_args (agentcore_memory_id w) request));
                 Call (CreateEvent (init_event_args w (user_id request)))])%list /\
    count is_create_event (trace w') = S (count is_create_event (trace w)) /\
    sc_user_id ctx = user_id request /\
    sc_session_id ctx = sid /\
    messages ctx = [mkMessage (PStr "assistant")
                      (PList [PDict [("type", PStr "text"); ("text", PStr init_text)]])].
Proof.
  intros Hg Hs Hnone Hack Hev Hsid Huid.
  set (c1 := ListSessions (list_sessions_args (agentcore_memory_id w) request)) in *.
  set (w1 := record (Call c1) w).
  assert (Hinit : initialize_session (user_id request) w1
                  = (Returned (fresh_context sid (user_id request)),
                     record (Call (CreateEvent (init_event_args w (user_id request)))) w1)).
  { apply (initialize_session_acknowledged (user_id request) w1 ack ev); try assumption.
    unfold w1. rewrite ncalls_record_call. exact Hack. }
  exists (fresh_context sid (user_id request)),
         (record (Call (CreateEvent (init_event_args w (user_id request)))) w1).
  split; [|repeat split].
  - unfold get_session_context.
    unfold bind at 1. unfold load_global_memory_id at 1.
    unfold bind at 1. rewrite Hg. cbn [negb]. unfold ret at 1.
    unfold bind at 1. rewrite Hs. cbn [negb].
    unfold try_except at 1. unfold bind at 1. unfold load_global_memory_id at 1.
    unfold bind at 1. unfold try_except at 1. unfold bind at 1. unfold invoke at 1.
    fold c1. fold w1.
    destruct Hnone as [(e & He & Hnf) | (resp & Hr & Hz)].
    + rewrite He, Hnf. unfold bind at 1. rewrite Hinit. reflexivity.
    + rewrite Hr. unfold ret at 1. cbn [load_local]. unfold bind at 1. unfold ret at 1.
      unfold bind at 1. unfold lift at 1. cbn [dict_get_default].
      destruct Hz as [Hz|Hz]; rewrite Hz; unfold bind at 1; unfold lift at 1;
        cbn [py_len List.length Nat.eqb]; unfold bind at 1; rewrite Hinit; reflexivity.
  - unfold w1, record; cbn [trace]. now rewrite <- app_assoc.
  - unfold w1, record; cbn [trace]. rewrite !count_app. unfold count; simpl. lia.
Qed.

(** C9 (the code departs from it). When the listing of sessions raises an
    error that does not mention ResourceNotFoundException, the handler at
    lines 485-488 ends without re-raising and without binding [response];
    line 489 then reads [response] and [get_session_context] raises
    [UnboundLocalError] in place of the backend error. *)
Theorem get_session_context_masks_listing_error
    (request : Request) (w : world) (e : exn) :
  truthy (agentcore_memory_id w) = true ->
  truthy (session_id request) = false ->
  respond be (ncalls (trace w))
          (ListSessions (list_sessions_args (agentcore_memory_id w) request))
  = Raised e ->
  str_in "ResourceNotFoundException" (str_of_exn e) = false ->
  get_session_context request w
  = (Raised (mkExn UnboundLocalError "response"),
     record (Call (ListSessions (list_sessions_args (agentcore_memory_id w) request))) w).
Proof.
  intros Hg Hs He Hnf.
  unfold get_session_context.
  unfold bind at 1. unfold load_global_memory_id at 1.
  unfold bind at 1. rewrite Hg. cbn [negb]. unfold ret at 1.
  unfold bind at 1. rewrite Hs. cbn [negb].
  unfold try_except at 1. unfold bind at 1. unfold load_global_memory_id at 1.
  unfold bind at 1. unfold try_except at 1. unfold bind at 1. unfold invoke at 1.
  rewrite He, Hnf. reflexivity.
Qed.

(** ** Event append *)

(** C10. When the message list of the session context is empty,
    [create_memory] raises [IndexError] at line 538 and the world is as
    before: no backend call was issued.  Hence whenever [create_memory]
    issued a call, the message list was not empty. *)
Theorem create_memory_needs_a_message (request : CreateMemoryRequest) (w : world) :
  (messages (session_context request) = [] ->
   create_memory request w
   = (Raised (mkExn IndexError "list index out of range"), w)) /\
  (forall o w', create_memory request w = (o, w') ->
                trace w' <> trace w ->
                messages (session_context request) <> []).
Proof.
  assert (H : messages (session_context request) = [] ->
              create_memory request w
              = (Raised (mkExn IndexError "list index out of range"), w)).
  { intros Hm. unfold create_memory, bind, lift. rewrite Hm. reflexivity. }
  split; [exact H|].
  intros o w' Hrun Htr Hm. rewrite (H Hm) in Hrun.
  inversion Hrun; subst. now apply Htr.
Qed.

(** ** Provider management *)

(** C7 (the code departs from it). [update_memory_provider] raises
    [UnboundLocalError] at line 236, before the [try] and before any
    backend call, whatever the request: the current state is never
    fetched, let alone returned. *)
Theorem update_memory_provider_raises_unbound_local (request : UpdateRequest) (w : world) :
  update_memory_provider request w
  = (Raised (mkExn UnboundLocalError "agentcore_control_client"), w).
Proof.
  reflexivity.
Qed.

(** C8 (the code departs from it). [delete_memory_provider] raises
    [UnboundLocalError] at line 203, before the [try]: the delete call is
    never issued and the memory id is never returned. *)
Theorem delete_memory_provider_raises_unbound_local (request : DeleteRequest) (w : world) :
  delete_memory_provider request w
  = (Raised (mkExn UnboundLocalError "agentcore_control_client"), w).
Proof.
  reflexivity.
Qed.

(** X10. The order the scan of lines 496-502 implements: among summaries
    from which it can read an id (under the key [sesssionId]) and a naive
    creation time, it keeps the id of the latest one after the starting
    time, and of the first such one when several are equally late; when
    none is later than the starting time it keeps the starting id. *)
Lemma scan_sessions_selects_first_latest (sessions : list pyval) (keyed : list (pyval * Z)) :
  Forall2 scan_reads sessions keyed ->
  forall acc_id acc_t w,
  exists r,
    scan_sessions sessions acc_id (PDatetime false acc_t) w = (Returned r, w) /\
    ((r = acc_id /\ Forall (fun it => (snd it <= acc_t)%Z) keyed) \/
     (exists pre id t post,
        keyed = (pre ++ (id, t) :: post)%list /\ r = id /\ (acc_t < t)%Z /\
        Forall (fun it => (snd it < t)%Z) pre /\
        Forall (fun it => (snd it <= t)%Z) post)).
Proof.
  induction 1 as [|session [id t] sessions keyed (d & -> & Hid & Hcr) _ IH];
    intros acc_id acc_t w.
  - exists acc_id. split; [reflexivity | left; split; [reflexivity | constructor]].
  - cbn [fst snd] in Hid, Hcr. cbn [scan_sessions].
    unfold bind at 1. unfold lift at 1. cbn [getitem]. rewrite Hcr.
    unfold bind at 1. unfold lift at 1. cbn [py_gt Bool.eqb].
    destruct (acc_t <? t)%Z eqn:E.
    + apply Z.ltb_lt in E.
      unfold bind at 1. unfold lift at 1. rewrite Hid.
      unfold bind at 1. unfold lift at 1.
      destruct (IH id t w) as (r & Hrun & Hsel). exists r. split; [exact Hrun|].
      right. destruct Hsel as [[-> Hall] | (pre & id' & t' & post & -> & -> & Hlt & Hpre & Hpost)].
      * exists [], id, t, keyed. repeat split; auto.
      * exists ((id, t) :: pre), id', t', post. repeat split; auto; try lia.
    + apply Z.ltb_ge in E.
      destruct (IH acc_id acc_t w) as (r & Hrun & Hsel). exists r. split; [exact Hrun|].
      destruct Hsel as [[-> Hall] | (pre & id' & t' & post & -> & -> & Hlt & Hpre & Hpost)].
      * left. split; [reflexivity|]. constructor; [exact E | exact Hall].
      * right. exists ((id, t) :: pre), id', t', post. repeat split; auto.
        constructor; [cbn; lia | exact Hpre].
Qed.

(** C1 (the code departs from it). Line 501 reads the key [sesssionId],
    which a session summary does not have.  When the first summary of a
    non-empty listing has a naive [createdAt] after the epoch,
    [get_session_context] raises [KeyError] there; when its [createdAt] is
    timezone-aware, the comparison with the naive [datetime(1970,1,1)] at
    line 500 raises [TypeError].  In both cases the listing is the only
    backend call: no events are retrieved for the session. *)
Theorem get_session_context_fails_on_listed_sessions
    (request : Request) (w : world) (resp summary : dict) (others : list pyval)
    (aware : bool) (t : Z) :
  truthy (agentcore_memory_id w) = true ->
  truthy (session_id request) = false ->
  respond be (ncalls (trace w))
          (ListSessions (list_sessions_args (agentcore_memory_id w) request))
  = Returned (PDict resp) ->
  dict_get resp "sessionSummaries" = Some (PList (PDict summary :: others)) ->
  dict_get summary "sesssionId" = None ->
  dict_get summary "createdAt" = Some (PDatetime aware t) ->
  aware = true \/ (0 < t)%Z ->
  get_session_context request w
  = (Raised (if aware
             then mkExn TypeError "can't compare offset-naive and offset-aware datetimes"
             else mkExn KeyError "sesssionId"),
     record (Call (ListSessions (list_sessions_args (agentcore_memory_id w) request))) w).
Proof.
  intros Hg Hs Hr Hsum Hkey Hcr Ht.
  unfold get_session_context.
  unfold bind at 1. unfold load_global_memory_id at 1.
  unfold bind at 1. rewrite Hg. cbn [negb]. unfold ret at 1.
  unfold bind at 1. rewrite Hs. cbn [negb].
  unfold try_except at 1. unfold bind at 1. unfold load_global_memory_id at 1.
  unfold bind at 1. unfold try_except at 1. unfold bind at 1. unfold invoke at 1.
  rewrite Hr. unfold ret at 1. cbn [load_local]. unfold bind at 1. unfold ret at 1.
  unfold bind at 1. unfold lift at 1. cbn [dict_get_default]. rewrite Hsum.
  unfold bind at 1. unfold lift at 1. cbn [py_len List.length Nat.eqb].
  unfold bind at 1. unfold lift at 1. cbn [getitem]. rewrite Hsum.
  unfold bind at 1. unfold lift at 1. cbn [py_iter].
  unfold bind at 1. cbn [scan_sessions].
  unfold bind at 1. unfold lift at 1. cbn [getitem]. rewrite Hcr.
  unfold bind at 1. unfold lift at 1. cbn [py_gt].
  destruct aware; cbn [Bool.eqb].
  - reflexivity.
  - destruct Ht as [Ht|Ht]; [discriminate|].
    apply Z.ltb_lt in Ht. rewrite Ht.
    unfold bind at 1. unfold lift at 1. rewrite Hkey. reflexivity.
Qed.

End Client.

(** ** Errors during create-polling *)

Lemma active_details_pending (r : outcome pyval) :
  pending_status r -> active_details r = None.
Proof.
  intros (d & m & s & -> & Hm & Hs & Hne).
  unfold active_details. now rewrite Hm, Hs, Hne.
Qed.

Lemma active_details_errors_for_pending (r1 r2 : outcome pyval) :
  errors_for_pending r1 r2 -> active_details r1 = active_details r2.
Proof.
  intros [-> | [(e & ->) Hp]]; [reflexivity|].
  now rewrite (active_details_pending r2 Hp).
Qed.

Lemma active_details_error_or_pending (r : outcome pyval) :
  error_or_pending r -> active_details r = None.
Proof.
  intros [(e & ->) | Hp]; [reflexivity | now apply active_details_pending].
Qed.

Lemma active_details_shows_active (r : outcome pyval) (m : dict) :
  shows_active r m -> active_details r = Some (PDict m).
Proof.
  intros (resp & -> & Hm & Hs). unfold active_details. now rewrite Hm, Hs.
Qed.

Lemma creation_loop_errors_for_pending (be be' : backend) (mid : string) (n d : Z) :
  (forall i, errors_for_pending (respond be i (status_query mid))
                                (respond be' i (status_query mid))) ->
  forall attempts w,
    creation_loop be mid n d attempts w = creation_loop be' mid n d attempts w.
Proof.
  intros Hsim. induction attempts as [|attempt rest IH]; intros w; [reflexivity|].
  rewrite !creation_loop_cons.
  rewrite (active_details_errors_for_pending _ _ (Hsim (ncalls (trace w)))).
  destruct (active_details (respond be' (ncalls (trace w)) (status_query mid)));
    [reflexivity|].
  unfold bind. destruct (attempt <? n)%Z.
  - destruct (sleep d (record (Call (status_query mid)) w)) as [[u|e] w1];
      [apply IH | reflexivity].
  - cbn. apply IH.
Qed.

(** C4. In create-polling, with a delay the process can sleep, a status
    query that raises an error, whether it says "not found" or anything
    else, uses up its attempt and the loop goes on with the next one,
    exactly as after a status that is not ACTIVE.  When the first [k - 1]
    queries each raise an error or show such a status, the wait does not
    raise any of these errors: it returns the details right after the
    [k]-th query when that one shows ACTIVE, having slept [k - 1] times, and
    it raises its [TimeoutError] after [k] queries when [k] is
    [max_attempts] and the [k]-th query fails or is pending too.  The world
    it ends in is the same whichever of the queries raised; and a wait
    against a backend that raises errors ends as the wait against the
    backend that shows a non-ACTIVE status at those queries. *)
Theorem creation_poll_treats_errors_as_pending
    (be : backend) (mid : string) (n d : Z) (w : world) (k : nat) :
  1 <= k -> (Z.of_nat k <= n)%Z ->
  (0 <= d <= delay_bound)%Z ->
  (forall j, j < k - 1 ->
     error_or_pending (respond be (ncalls (trace w) + j) (status_query mid))) ->
  (forall m,
     shows_active (respond be (ncalls (trace w) + (k - 1)) (status_query mid)) m ->
     _wait_for_memory_provider_creation be mid n d w
     = (Returned (PDict m), after_poll w mid d k) /\
     polled mid w (after_poll w mid d k) k (k - 1)) /\
  (Z.of_nat k = n ->
   error_or_pending (respond be (ncalls (trace w) + (k - 1)) (status_query mid)) ->
   _wait_for_memory_provider_creation be mid n d w
   = (Raised (mkExn TimeoutError (timeout_creation_msg mid)), after_poll w mid d k) /\
   polled mid w (after_poll w mid d k) k (k - 1)) /\
  (forall be',
     (forall i, errors_for_pending (respond be i (status_query mid))
                                   (respond be' i (status_query mid))) ->
     _wait_for_memory_provider_creation be mid n d w
     = _wait_for_memory_provider_creation be' mid n d w).
Proof.
  intros Hk Hkn Hd Hearlier.
  assert (Hsk : S (k - 1) = k) by lia.
  assert (Hnone : forall j, j < k - 1 ->
            active_details (respond be (ncalls (trace w) + j) (status_query mid)) = None).
  { intros j Hj. now apply active_details_error_or_pending, Hearlier. }
  split; [|split].
  - intros m Hact. split; [|now apply after_poll_polled].
    unfold _wait_for_memory_provider_creation, attempts_range.
    rewrite <- Hsk at 1.
    apply (shape_found be mid n d active_details (creation_loop be mid n d) Hd).
    + intros; apply creation_loop_cons.
    + lia.
    + lia.
    + exact Hnone.
    + now apply active_details_shows_active.
  - intros Hlast Hk_pending. split; [|now apply after_poll_polled].
    unfold _wait_for_memory_provider_creation, attempts_range.
    replace (Z.to_nat n) with (S (k - 1)) by lia.
    rewrite <- Hsk at 2.
    apply (shape_timeout be mid n d active_details
             (mkExn TimeoutError (timeout_creation_msg mid))
             (creation_loop be mid n d) Hd).
    + reflexivity.
    + intros; apply creation_loop_cons.
    + lia.
    + intros j Hj. destruct (Nat.eq_dec j (k - 1)) as [->|Hne].
      * now apply active_details_error_or_pending.
      * apply Hnone. lia.
  - intros be' Hsim. unfold _wait_for_memory_provider_creation.
    now apply creation_loop_errors_for_pending.
Qed.

(** ** The properties on the scenarios *)

Lemma poll_timeout_witness :
  (exists w',
     _wait_for_memory_provider_creation be_never_ready "m-123" 3 5 w0
     = (Raised (mkExn TimeoutError (timeout_creation_msg "m-123")), w') /\
     polled "m-123" w0 w' 3 2) /\
  (exists w',
     _wait_for_memory_provider_deletion be_never_ready "m-123" 3 5 w0
     = (Raised (mkExn TimeoutError (timeout_deletion_msg "m-123")), w') /\
     polled "m-123" w0 w' 3 2).
Proof.
  destruct (poll_timeout be_never_ready "m-123" 3 5 w0
              ltac:(lia) ltac:(unfold delay_bound; lia)) as (Hc & Hd & _).
  split; [apply Hc | apply Hd]; intros j Hj; reflexivity.
Defined.

Lemma poll_returns_at_first_terminal_witness :
  (exists w',
     _wait_for_memory_provider_creation be_ready_second "m-123" 20 30 w0
     = (Returned (PDict [("id", PStr "m-123"); ("status", PStr "ACTIVE")]), w') /\
     polled "m-123" w0 w' 2 1) /\
  (exists w',
     _wait_for_memory_provider_deletion be_gone_second "m-123" 20 10 w0
     = (Returned (PBool true), w') /\
     polled "m-123" w0 w' 2 1) /\
  (_wait_for_memory_provider_deletion be_gone "m-123" 20 10 w0
   = (Returned (PBool true), record (Call (status_query "m-123")) w0) /\
   polled "m-123" w0 (record (Call (status_query "m-123")) w0) 1 0).
Proof.
  split; [|split].
  - destruct (poll_returns_at_first_terminal be_ready_second "m-123" 20 30 w0 2
                ltac:(lia) ltac:(lia) ltac:(unfold delay_bound; lia)) as (Hc & _ & _).
    apply Hc; [|reflexivity].
    intros j Hj. destruct j as [|j]; [reflexivity | simpl in Hj; lia].
  - destruct (poll_returns_at_first_terminal be_gone_second "m-123" 20 10 w0 2
                ltac:(lia) ltac:(lia) ltac:(unfold delay_bound; lia)) as (_ & Hd & _).
    apply Hd; [|reflexivity].
    intros j Hj. destruct j as [|j]; [reflexivity | simpl in Hj; lia].
  - destruct (poll_returns_at_first_terminal be_gone "m-123" 20 10 w0 1
                ltac:(lia) ltac:(lia) ltac:(unfold delay_bound; lia)) as (_ & _ & Hg).
    apply (Hg (mkExn Exception "Memory m-123 does not exist")); reflexivity.
Defined.

Lemma be_flaky_two_errors (j : nat) :
  j < 2 -> error_or_pending (respond be_flaky (ncalls (trace w0) + j) (status_query "m-123")).
Proof.
  intros Hj. destruct j as [|[|j]]; [left; eexists; reflexivity .. | lia].
Defined.

Lemma creation_poll_treats_errors_as_pending_witness :
  (_wait_for_memory_provider_creation be_flaky "m-123" 20 30 w0
   = (Returned (PDict [("id", PStr "m-123"); ("status", PStr "ACTIVE")]),
      after_poll w0 "m-123" 30 3) /\
   polled "m-123" w0 (after_poll w0 "m-123" 30 3) 3 2) /\
  (_wait_for_memory_provider_creation be_flaky "m-123" 2 30 w0
   = (Raised (mkExn TimeoutError (timeout_creation_msg "m-123")),
      after_poll w0 "m-123" 30 2) /\
   polled "m-123" w0 (after_poll w0 "m-123" 30 2) 2 1) /\
  _wait_for_memory_provider_creation be_flaky "m-123" 20 30 w0
  = _wait_for_memory_provider_creation be_slow "m-123" 20 30 w0.
Proof.
  split; [|split].
  - destruct (creation_poll_treats_errors_as_pending be_flaky "m-123" 20 30 w0 3
                ltac:(lia) ltac:(lia) ltac:(unfold delay_bound; lia)
                be_flaky_two_errors) as (Hfound & _ & _).
    apply Hfound.
    exists [("memory", PDict [("id", PStr "m-123"); ("status", PStr "ACTIVE")])].
    repeat split.
  - destruct (creation_poll_treats_errors_as_pending be_flaky "m-123" 2 30 w0 2
                ltac:(lia) ltac:(lia) ltac:(unfold delay_bound; lia)
                ltac:(intros j Hj; apply be_flaky_two_errors; simpl in Hj; lia))
      as (_ & Htimeout & _).
    apply Htimeout; [reflexivity|]. apply be_flaky_two_errors. simpl. lia.
  - destruct (creation_poll_treats_errors_as_pending be_flaky "m-123" 20 30 w0 3
                ltac:(lia) ltac:(lia) ltac:(unfold delay_bound; lia)
                be_flaky_two_errors) as (_ & _ & Hsim).
    apply Hsim. intros i.
    destruct i as [|[|i]]; cbn.
    + right. split; [eexists; reflexivity|].
      exists [("memory", PDict [("id", PStr "m-123"); ("status", PStr "CREATING")])],
             [("id", PStr "m-123"); ("status", PStr "CREATING")], "CREATING".
      repeat split.
    + right. split; [eexists; reflexivity|].
      exists [("memory", PDict [("id", PStr "m-123"); ("status", PStr "CREATING")])],
             [("id", PStr "m-123"); ("status", PStr "CREATING")], "CREATING".
      repeat split.
    + left. reflexivity.
Defined.

Lemma get_memories_strips_routing_fields_witness :
  exists out,
    get_memories be_events req_s1 w0
    = (Returned (PList out),
       record (Call (ListEvents (list_events_args (agentcore_memory_id w0) req_s1))) w0) /\
    List.length out = 2 /\
    forall i d, nth_error sample_events i = Some (PDict d) ->
      exists d',
        nth_error out i = Some (PDict d') /\
        d' = filter (fun kv => negb (fst kv =? "memoryId") && negb (fst kv =? "actorId")) d /\
        dict_get d' "memoryId" = None /\
        dict_get d' "actorId" = None /\
        forall k, k <> "memoryId" -> k <> "actorId" -> dict_get d' k = dict_get d k.
Proof.
  apply (get_memories_strips_routing_fields be_events req_s1 w0
           [("events", PList sample_events)] sample_events); reflexivity.
Defined.

Lemma get_session_context_initializes_witness :
  (exists ctx w',
     get_session_context be_new_actor no_resolution req_u1 w0
     = (Returned (FreshSession ctx), w') /\
     trace w' = [Call (ListSessions (list_sessions_args (PStr "mem-1") req_u1));
                 Call (CreateEvent (init_event_args w0 (PStr "u1")))] /\
     count is_create_event (trace w') = 1 /\
     sc_user_id ctx = PStr "u1" /\
     sc_session_id ctx = PStr "s-new" /\
     messages ctx = [mkMessage (PStr "assistant")
                       (PList [PDict [("type", PStr "text"); ("text", PStr init_text)]])]) /\
  (exists ctx w',
     get_session_context be_no_session no_resolution req_u1 w0
     = (Returned (FreshSession ctx), w') /\
     trace w' = [Call (ListSessions (list_sessions_args (PStr "mem-1") req_u1));
                 Call (CreateEvent (init_event_args w0 (PStr "u1")))] /\
     count is_create_event (trace w') = 1 /\
     sc_user_id ctx = PStr "u1" /\
     sc_session_id ctx = PStr "s-new" /\
     messages ctx = [mkMessage (PStr "assistant")
                       (PList [PDict [("type", PStr "text"); ("text", PStr init_text)]])]).
Proof.
  split.
  - apply (get_session_context_initializes be_new_actor no_resolution req_u1 w0
             (acknowledge (init_event_args w0 (PStr "u1")))
             [("sessionId", PStr "s-new"); ("actorId", PStr "u1"); ("eventId", PStr "e-0")]
             (PStr "s-new")); try reflexivity.
    left. eexists. split; reflexivity.
  - apply (get_session_context_initializes be_no_session no_resolution req_u1 w0
             (acknowledge (init_event_args w0 (PStr "u1")))
             [("sessionId", PStr "s-new"); ("actorId", PStr "u1"); ("eventId", PStr "e-0")]
             (PStr "s-new")); try reflexivity.
    right. eexists. split; [reflexivity | left; reflexivity].
Defined.

Lemma get_session_context_masks_listing_error_witness :
  get_session_context be_throttled no_resolution req_u1 w0
  = (Raised (mkExn UnboundLocalError "response"),
     record (Call (ListSessions (list_sessions_args (PStr "mem-1") req_u1))) w0).
Proof.
  apply (get_session_context_masks_listing_error be_throttled no_resolution req_u1 w0
           (mkExn Exception
              "An error occurred (ThrottlingException) when calling the ListSessions operation"));
    reflexivity.
Defined.

Lemma get_session_context_fails_on_listed_sessions_witness :
  get_session_context (be_one_session (PDatetime false 1700000000)) no_resolution req_u1 w0
  = (Raised (mkExn KeyError "sesssionId"),
     record (Call (ListSessions (list_sessions_args (PStr "mem-1") req_u1))) w0) /\
  get_session_context (be_one_session (PDatetime true 1700000000)) no_resolution req_u1 w0
  = (Raised (mkExn TypeError "can't compare offset-naive and offset-aware datetimes"),
     record (Call (ListSessions (list_sessions_args (PStr "mem-1") req_u1))) w0).
Proof.
  split.
  - apply (get_session_context_fails_on_listed_sessions
             (be_one_session (PDatetime false 1700000000)) no_resolution req_u1 w0
             [("sessionSummaries", PList [PDict (one_summary (PDatetime false 1700000000))])]
             (one_summary (PDatetime false 1700000000)) [] false 1700000000);
      try reflexivity.
    right. lia.
  - apply (get_session_context_fails_on_listed_sessions
             (be_one_session (PDatetime true 1700000000)) no_resolution req_u1 w0
             [("sessionSummaries", PList [PDict (one_summary (PDatetime true 1700000000))])]
             (one_summary (PDatetime true 1700000000)) [] true 1700000000);
      try reflexivity.
    left. reflexivity.
Defined.

Lemma create_memory_needs_a_message_witness :
  create_memory be_events req_no_message w0
  = (Raised (mkExn IndexError "list index out of range"), w0).
Proof.
  apply (create_memory_needs_a_message be_events req_no_message w0). reflexivity.
Defined.

(** * Further properties of the client *)

(** ** Poll loops against an arbitrary backend *)

Lemma first_terminal (f : nat -> option pyval) (N : nat) :
  (forall j, j < N -> f j = None) \/
  (exists k v, k < N /\ (forall j, j < k -> f j = None) /\ f k = Some v).
Proof.
  induction N as [|N [Hnone | (k & v & Hk & Hbefore & Hat)]].
  - left. intros j Hj. lia.
  - destruct (f N) as [v|] eqn:E.
    + right. exists N, v. repeat split; auto.
    + left. intros j Hj. destruct (Nat.eq_dec j N) as [->|Hne]; [exact E|].
      apply Hnone. lia.
  - right. exists k, v. repeat split; auto.
Qed.

Lemma attempts_range_nonpositive (n : Z) : (n <= 0)%Z -> attempts_range n = [].
Proof.
  intros Hn. unfold attempts_range. now replace (Z.to_nat n) with 0 by lia.
Qed.

Lemma active_details_inv (r : outcome pyval) (details : pyval) :
  active_details r = Some details ->
  exists resp m,
    r = Returned (PDict resp) /\ dict_get resp "memory" = Some (PDict m) /\
    details = PDict m /\ dict_get m "status" = Some (PStr "ACTIVE").
Proof.
  unfold active_details.
  destruct r as [[| | | | | |resp]|e]; try discriminate.
  destruct (dict_get resp "memory") as [[| | | | | |m]|] eqn:Em; try discriminate.
  destruct (dict_get m "status") as [[| | |s| | |]|] eqn:Es; try discriminate.
  destruct (s =? "ACTIVE") eqn:E; [|discriminate].
  apply String.eqb_eq in E; subst s.
  intros [= <-]. exists resp, m. repeat split; assumption.
Qed.

Lemma waits_raise_at_once (be : backend) (mid : string) (n d : Z) (w : world) :
  (n <= 0)%Z ->
  _wait_for_memory_provider_creation be mid n d w
  = (Raised (mkExn TimeoutError (timeout_creation_msg mid)), w) /\
  _wait_for_memory_provider_deletion be mid n d w
  = (Raised (mkExn TimeoutError (timeout_deletion_msg mid)), w).
Proof.
  intros Hn.
  unfold _wait_for_memory_provider_creation, _wait_for_memory_provider_deletion.
  rewrite (attempts_range_nonpositive n Hn). split; reflexivity.
Qed.

(** X1. With [max_attempts <= 0] neither wait queries the backend or
    sleeps: it raises its [TimeoutError] at once. *)
Theorem wait_without_attempts (be : backend) (mid : string) (n d : Z) (w : world) :
  (n <= 0)%Z ->
  _wait_for_memory_provider_creation be mid n d w
  = (Raised (mkExn TimeoutError (timeout_creation_msg mid)), w) /\
  _wait_for_memory_provider_deletion be mid n d w
  = (Raised (mkExn TimeoutError (timeout_deletion_msg mid)), w).
Proof.
  apply waits_raise_at_once.
Qed.

Lemma wait_without_attempts_witness :
  _wait_for_memory_provider_creation be_ready_second "m-123" 0 30 w0
  = (Raised (mkExn TimeoutError (timeout_creation_msg "m-123")), w0) /\
  _wait_for_memory_provider_deletion be_gone "m-123" (-1) 10 w0
  = (Raised (mkExn TimeoutError (timeout_deletion_msg "m-123")), w0).
Proof.
  split.
  - apply (wait_without_attempts be_ready_second "m-123" 0 30 w0). lia.
  - apply (wait_without_attempts be_gone "m-123" (-1) 10 w0). lia.
Defined.

(** X2. Whatever the backend answers, with a delay the process can sleep,
    the creation wait ends in one of two ways.  Either it returns, right
    after its [k]-th query with [1 <= k <= max_attempts], the [memory] entry
    of that answer, whose status is ACTIVE, no earlier answer having been
    such; or it raises its [TimeoutError] after [max_attempts] queries.  It
    raises no other error and never queries more than [max_attempts]
    times. *)
Theorem creation_wait_outcomes (be : backend) (mid : string) (n d : Z) (w : world) :
  (0 <= d <= delay_bound)%Z ->
  (exists k resp m,
     1 <= k <= Z.to_nat n /\
     (forall j, j < k - 1 ->
        active_details (respond be (ncalls (trace w) + j) (status_query mid)) = None) /\
     respond be (ncalls (trace w) + (k - 1)) (status_query mid) = Returned (PDict resp) /\
     dict_get resp "memory" = Some (PDict m) /\
     dict_get m "status" = Some (PStr "ACTIVE") /\
     _wait_for_memory_provider_creation be mid n d w
     = (Returned (PDict m), after_poll w mid d k))
  \/
  ((forall j, j < Z.to_nat n ->
      active_details (respond be (ncalls (trace w) + j) (status_query mid)) = None) /\
   _wait_for_memory_provider_creation be mid n d w
   = (Raised (mkExn TimeoutError (timeout_creation_msg mid)),
      if (n <=? 0)%Z then w else after_poll w mid d (Z.to_nat n))).
Proof.
  intros Hd.
  destruct (first_terminal
              (fun j => active_details
                          (respond be (ncalls (trace w) + j) (status_query mid)))
              (Z.to_nat n)) as [Hnone | (p & v & Hp & Hbefore & Hat)].
  - right. split; [exact Hnone|].
    destruct (n <=? 0)%Z eqn:E.
    + apply Z.leb_le in E. now apply waits_raise_at_once.
    + apply Z.leb_gt in E.
      unfold _wait_for_memory_provider_creation, attempts_range.
      destruct (Z.to_nat n) as [|len] eqn:En; [lia|].
      apply (shape_timeout be mid n d active_details
               (mkExn TimeoutError (timeout_creation_msg mid))
               (creation_loop be mid n d) Hd); auto.
      * intros; apply creation_loop_cons.
      * lia.
  - left. destruct (active_details_inv _ _ Hat) as (resp & m & Hr & Hm & -> & Hs).
    exists (S p), resp, m. replace (S p - 1) with p by lia.
    repeat split; auto; try lia.
    unfold _wait_for_memory_provider_creation, attempts_range.
    apply (shape_found be mid n d active_details (creation_loop be mid n d) Hd); auto.
    + intros; apply creation_loop_cons.
    + lia.
Qed.

Lemma creation_wait_outcomes_witness :
  (exists k resp m,
     1 <= k <= Z.to_nat 20 /\
     (forall j, j < k - 1 ->
        active_details (respond be_slow (ncalls (trace w0) + j) (status_query "m-123"))
        = None) /\
     respond be_slow (ncalls (trace w0) + (k - 1)) (status_query "m-123")
     = Returned (PDict resp) /\
     dict_get resp "memory" = Some (PDict m) /\
     dict_get m "status" = Some (PStr "ACTIVE") /\
     _wait_for_memory_provider_creation be_slow "m-123" 20 30 w0
     = (Returned (PDict m), after_poll w0 "m-123" 30 k))
  \/
  ((forall j, j < Z.to_nat 20 ->
      active_details (respond be_slow (ncalls (trace w0) + j) (status_query "m-123"))
      = None) /\
   _wait_for_memory_provider_creation be_slow "m-123" 20 30 w0
   = (Raised (mkExn TimeoutError (timeout_creation_msg "m-123")),
      if (20 <=? 0)%Z then w0 else after_poll w0 "m-123" 30 (Z.to_nat 20))).
Proof.
  apply (creation_wait_outcomes be_slow "m-123" 20 30 w0).
  unfold delay_bound. lia.
Defined.

(** X3. Whatever the backend answers, with a delay the process can sleep,
    the deletion wait either returns [True], right after the first query
    that raises an error saying "Memory not found" or "does not exist" (the
    [k]-th, with [1 <= k <= max_attempts]), or raises its [TimeoutError]
    after [max_attempts] queries.  A query that succeeds, or fails with
    another error, never ends the wait. *)
Theorem deletion_wait_outcomes (be : backend) (mid : string) (n d : Z) (w : world) :
  (0 <= d <= delay_bound)%Z ->
  (exists k e,
     1 <= k <= Z.to_nat n /\
     (forall j, j < k - 1 ->
        reports_absent (respond be (ncalls (trace w) + j) (status_query mid)) = false) /\
     respond be (ncalls (trace w) + (k - 1)) (status_query mid) = Raised e /\
     str_in "Memory not found" (str_of_exn e) || str_in "does not exist" (str_of_exn e)
     = true /\
     _wait_for_memory_provider_deletion be mid n d w
     = (Returned (PBool true), after_poll w mid d k))
  \/
  ((forall j, j < Z.to_nat n ->
      reports_absent (respond be (ncalls (trace w) + j) (status_query mid)) = false) /\
   _wait_for_memory_provider_deletion be mid n d w
   = (Raised (mkExn TimeoutError (timeout_deletion_msg mid)),
      if (n <=? 0)%Z then w else after_poll w mid d (Z.to_nat n))).
Proof.
  intros Hd.
  set (cls := fun r => if reports_absent r then Some (PBool true) else None).
  assert (Hcls : forall r, cls r = None <-> reports_absent r = false).
  { intros r. unfold cls. destruct (reports_absent r); split; congruence. }
  destruct (first_terminal
              (fun j => cls (respond be (ncalls (trace w) + j) (status_query mid)))
              (Z.to_nat n)) as [Hnone | (p & v & Hp & Hbefore & Hat)].
  - right. split; [intros j Hj; now apply Hcls, Hnone|].
    destruct (n <=? 0)%Z eqn:E.
    + apply Z.leb_le in E. now apply waits_raise_at_once.
    + apply Z.leb_gt in E.
      unfold _wait_for_memory_provider_deletion, attempts_range.
      destruct (Z.to_nat n) as [|len] eqn:En; [lia|].
      apply (shape_timeout be mid n d cls
               (mkExn TimeoutError (timeout_deletion_msg mid))
               (deletion_loop be mid n d) Hd); auto.
      * intros; apply deletion_loop_cons.
      * lia.
  - left. cbv beta in Hat.
    destruct (respond be (ncalls (trace w) + p) (status_query mid)) as [r|e] eqn:Er;
      [discriminate Hat|].
    unfold cls, reports_absent in Hat.
    destruct (str_in "Memory not found" (str_of_exn e) || str_in "does not exist" (str_of_exn e))
      eqn:Etxt; [|discriminate Hat].
    injection Hat as <-.
    exists (S p), e. replace (S p - 1) with p by lia.
    repeat split; auto; try lia.
    + intros j Hj. now apply Hcls, Hbefore.
    + unfold _wait_for_memory_provider_deletion, attempts_range.
      apply (shape_found be mid n d cls (deletion_loop be mid n d) Hd); auto.
      * intros; apply deletion_loop_cons.
      * lia.
      * rewrite Er. unfold cls, reports_absent. now rewrite Etxt.
Qed.

Lemma deletion_wait_outcomes_witness :
  (exists k e,
     1 <= k <= Z.to_nat 20 /\
     (forall j, j < k - 1 ->
        reports_absent (respond be_gone_second (ncalls (trace w0) + j) (status_query "m-123"))
        = false) /\
     respond be_gone_second (ncalls (trace w0) + (k - 1)) (status_query "m-123") = Raised e /\
     str_in "Memory not found" (str_of_exn e) || str_in "does not exist" (str_of_exn e)
     = true /\
     _wait_for_memory_provider_deletion be_gone_second "m-123" 20 10 w0
     = (Returned (PBool true), after_poll w0 "m-123" 10 k))
  \/
  ((forall j, j < Z.to_nat 20 ->
      reports_absent (respond be_gone_second (ncalls (trace w0) + j) (status_query "m-123"))
      = false) /\
   _wait_for_memory_provider_deletion be_gone_second "m-123" 20 10 w0
   = (Raised (mkExn TimeoutError (timeout_deletion_msg "m-123")),
      if (20 <=? 0)%Z then w0 else after_poll w0 "m-123" 10 (Z.to_nat 20))).
Proof.
  apply (deletion_wait_outcomes be_gone_second "m-123" 20 10 w0).
  unfold delay_bound. lia.
Defined.



(** ** Event listing and append against an arbitrary backend *)

(** Runs a computation made of pure steps after its last backend call. *)
Ltac run_pure :=
  repeat match goal with
         | |- context [match ?o with Returned _ => _ | Raised _ => _ end] =>
             destruct o
         | |- context [match ?o with Some _ => _ | None => _ end] =>
             destruct o
         end.

Lemma strip_events_world (events context : list pyval) (w : world) :
  exists o, strip_events events context w = (o, w).
Proof.
  revert context. induction events as [|evt rest IH]; intros context.
  - eexists; reflexivity.
  - cbn [strip_events]. unfold bind at 1. unfold lift at 1.
    destruct (delitem evt "memoryId") as [evt1|e]; [|eexists; reflexivity].
    unfold bind at 1. unfold lift at 1.
    destruct (delitem evt1 "actorId") as [evt2|e]; [|eexists; reflexivity].
    apply IH.
Qed.

Lemma strip_events_missing_key (good rest : list pyval) (d : dict) :
  forallb has_routing_fields good = true ->
  has_routing_fields (PDict d) = false ->
  forall context w,
    strip_events (good ++ PDict d :: rest)%list context w
    = (Raised (mkExn KeyError (match dict_get d "memoryId" with
                               | Some _ => "actorId"
                               | None => "memoryId"
                               end)), w).
Proof.
  intros Hgood Hbad. induction good as [|evt good IH]; intros context w.
  - cbn [app strip_events]. unfold bind at 1. unfold lift at 1. cbn [delitem].
    cbn [has_routing_fields] in Hbad.
    destruct (dict_get d "memoryId") eqn:Em; [|reflexivity].
    unfold bind at 1. unfold lift at 1. cbn [delitem].
    rewrite dict_get_del_other by discriminate.
    destruct (dict_get d "actorId"); [discriminate Hbad | reflexivity].
  - cbn [forallb] in Hgood. apply andb_true_iff in Hgood as [Hevt Hgood].
    destruct evt as [| | | | | |de]; try discriminate Hevt.
    cbn [has_routing_fields] in Hevt.
    destruct (dict_get de "memoryId") eqn:Em; [|discriminate].
    destruct (dict_get de "actorId") eqn:Ea; [|discriminate].
    cbn [app strip_events]. unfold bind at 1. unfold lift at 1. cbn [delitem]. rewrite Em.
    unfold bind at 1. unfold lift at 1. cbn [delitem].
    rewrite dict_get_del_other by discriminate. rewrite Ea.
    now apply IH.
Qed.

Lemma get_memories_call_and_outcome (be : backend) (request : Request) (w : world) :
  let c := ListEvents (list_events_args (agentcore_memory_id w) request) in
  exists o,
    get_memories be request w = (o, record (Call c) w) /\
    (forall e, respond be (ncalls (trace w)) c = Raised e -> o = Raised e) /\
    (forall resp, respond be (ncalls (trace w)) c = Returned (PDict resp) ->
                  dict_get resp "events" = None ->
                  o = Raised (mkExn KeyError "events")) /\
    (forall resp, respond be (ncalls (trace w)) c = Returned (PDict resp) ->
                  dict_get resp "events" = Some (PList []) ->
                  o = Returned (PList [])).
Proof.
  intros c. unfold get_memories.
  unfold bind at 1. unfold load_global_memory_id at 1.
  unfold bind at 1. unfold invoke at 1. fold c.
  destruct (respond be (ncalls (trace w)) c) as [r|e] eqn:Er.
  - unfold bind at 1. unfold lift at 1.
    destruct (getitem r "events") as [events_obj|e] eqn:Eg.
    + unfold bind at 1. unfold lift at 1.
      destruct (py_iter events_obj) as [events|e] eqn:Ei.
      * destruct (strip_events_world events [] (record (Call c) w)) as (o & Ho).
        unfold bind at 1. rewrite Ho.
        destruct o as [context|e].
        -- exists (Returned (PList context)). split; [reflexivity|].
           split; [discriminate|]. split.
           ++ intros resp [= ->] Hnone. cbn in Eg. now rewrite Hnone in Eg.
           ++ intros resp [= ->] Hempty. cbn in Eg. rewrite Hempty in Eg.
              injection Eg as <-. injection Ei as <-.
              cbn in Ho. now injection Ho as <-.
        -- exists (Raised e). split; [reflexivity|].
           split; [discriminate|]. split.
           ++ intros resp [= ->] Hnone. cbn in Eg. now rewrite Hnone in Eg.
           ++ intros resp [= ->] Hempty. cbn in Eg. rewrite Hempty in Eg.
              injection Eg as <-. injection Ei as <-. cbn in Ho. discriminate Ho.
      * exists (Raised e). split; [reflexivity|].
        split; [discriminate|]. split.
        -- intros resp [= ->] Hnone. cbn in Eg. now rewrite Hnone in Eg.
        -- intros resp [= ->] Hempty. cbn in Eg. rewrite Hempty in Eg.
           injection Eg as <-. discriminate Ei.
    + exists (Raised e). split; [reflexivity|].
      split; [discriminate|]. split.
      * intros resp [= ->] Hnone. cbn in Eg. rewrite Hnone in Eg. now injection Eg as <-.
      * intros resp [= ->] Hempty. cbn in Eg. now rewrite Hempty in Eg.
  - exists (Raised e). split; [reflexivity|].
    split; [now intros e' [= ->]|]. split; discriminate.
Qed.

(** X4. Whatever the backend answers, [get_memories] issues exactly one
    backend call, the [list_events] for the request; an error of that call
    comes out unchanged, an answer without the key [events] gives
    [KeyError], and an empty list of events gives an empty result. *)
Theorem get_memories_single_call (be : backend) (request : Request) (w : world) :
  let c := ListEvents (list_events_args (agentcore_memory_id w) request) in
  exists o,
    get_memories be request w = (o, record (Call c) w) /\
    (forall e, respond be (ncalls (trace w)) c = Raised e -> o = Raised e) /\
    (forall resp, respond be (ncalls (trace w)) c = Returned (PDict resp) ->
                  dict_get resp "events" = None ->
                  o = Raised (mkExn KeyError "events")) /\
    (forall resp, respond be (ncalls (trace w)) c = Returned (PDict resp) ->
                  dict_get resp "events" = Some (PList []) ->
                  o = Returned (PList [])).
Proof.
  apply get_memories_call_and_outcome.
Qed.

(** X5. If some listed event is a dict without [memoryId], or with
    [memoryId] and without [actorId], while the events before it carry both
    keys, [get_memories] raises [KeyError] for the first key that is
    missing: no partial list is returned. *)
Theorem get_memories_missing_routing_field
    (be : backend) (request : Request) (w : world)
    (resp : dict) (good rest : list pyval) (d : dict) :
  respond be (ncalls (trace w))
          (ListEvents (list_events_args (agentcore_memory_id w) request))
  = Returned (PDict resp) ->
  dict_get resp "events" = Some (PList (good ++ PDict d :: rest)) ->
  forallb has_routing_fields good = true ->
  has_routing_fields (PDict d) = false ->
  get_memories be request w
  = (Raised (mkExn KeyError (match dict_get d "memoryId" with
                             | Some _ => "actorId"
                             | None => "memoryId"
                             end)),
     record (Call (ListEvents (list_events_args (agentcore_memory_id w) request))) w).
Proof.
  intros Hresp Hev Hgood Hbad.
  unfold get_memories, bind, load_global_memory_id, invoke, lift.
  rewrite Hresp. cbn [getitem]. rewrite Hev. cbn [py_iter].
  now rewrite (strip_events_missing_key good rest d Hgood Hbad).
Qed.

Lemma get_memories_missing_routing_field_witness :
  get_memories be_incomplete_event req_s1 w0
  = (Raised (mkExn KeyError "actorId"),
     record (Call (ListEvents (list_events_args (agentcore_memory_id w0) req_s1))) w0).
Proof.
  apply (get_memories_missing_routing_field be_incomplete_event req_s1 w0
           [("events", PList [sample_event "e-1" "hello";
                              PDict [("memoryId", PStr "mem-1"); ("eventId", PStr "e-2")]])]
           [sample_event "e-1" "hello"] []
           [("memoryId", PStr "mem-1"); ("eventId", PStr "e-2")]);
    reflexivity.
Defined.

(** ** Session resolution with a session id *)

(** X6. With the resource id cached and a session id in the request,
    [get_session_context] lists no sessions and initializes none: its only
    backend call is the [list_events] of [get_memories] for that session,
    whose result it wraps and whose error it lets through unchanged. *)
Theorem get_session_context_with_session_id
    (be : backend) (resolver : M pyval) (request : Request) (w : world) :
  truthy (agentcore_memory_id w) = true ->
  truthy (session_id request) = true ->
  exists o,
    get_memories be request w
    = (o, record (Call (ListEvents (list_events_args (agentcore_memory_id w) request))) w) /\
    get_session_context be resolver request w
    = (match o with
       | Returned contexts => Returned (GetSessionContextResponse contexts)
       | Raised e => Raised e
       end,
       record (Call (ListEvents (list_events_args (agentcore_memory_id w) request))) w).
Proof.
  intros Hg Hs.
  destruct (get_memories_call_and_outcome be request w) as (o & Hrun & _).
  exists o. split; [exact Hrun|].
  unfold get_session_context.
  unfold bind at 1. unfold load_global_memory_id at 1.
  unfold bind at 1. rewrite Hg. cbn [negb]. unfold ret at 1.
  unfold bind at 1. rewrite Hs. cbn [negb]. unfold ret at 1.
  unfold bind at 1. rewrite Hrun. now destruct o.
Qed.

Lemma get_session_context_with_session_id_witness :
  exists o,
    get_memories be_events req_s1 w0
    = (o, record (Call (ListEvents (list_events_args (agentcore_memory_id w0) req_s1))) w0) /\
    get_session_context be_events no_resolution req_s1 w0
    = (match o with
       | Returned contexts => Returned (GetSessionContextResponse contexts)
       | Raised e => Raised e
       end,
       record (Call (ListEvents (list_events_args (agentcore_memory_id w0) req_s1))) w0).
Proof.
  apply (get_session_context_with_session_id be_events no_resolution req_s1 w0);
    reflexivity.
Defined.

(** ** Event append *)

Lemma list_last_snoc {A : Type} (l : list A) (x : A) :
  list_last (l ++ [x]) = Returned x.
Proof.
  unfold list_last. now rewrite rev_app_distr.
Qed.

(** X7. When the message list is not empty, [create_memory] issues exactly
    one backend call, whatever the backend answers: a [create_event] whose
    payload carries the content and role of the last message only, under the
    session and actor of the request, and with no [eventTimestamp]. *)
Theorem create_memory_appends_last_message
    (be : backend) (request : CreateMemoryRequest) (w : world)
    (earlier : list Message) (newest : Message) :
  messages (session_context request) = (earlier ++ [newest])%list ->
  exists o,
    create_memory be request w
    = (o, record (Call (CreateEvent (append_args w request newest))) w) /\
    dict_get (append_args w request newest) "eventTimestamp" = None /\
    (forall e,
       respond be (ncalls (trace w)) (CreateEvent (append_args w request newest))
       = Raised e -> o = Raised e).
Proof.
  intros Hm. unfold create_memory.
  unfold bind at 1. unfold lift at 1. rewrite Hm, list_last_snoc.
  unfold bind at 1. unfold load_global_memory_id at 1.
  unfold bind at 1. unfold invoke at 1. fold (append_args w request newest).
  destruct (respond be (ncalls (trace w)) (CreateEvent (append_args w request newest)))
    as [r|e].
  - unfold bind, lift, ret. run_pure;
      (eexists; split; [reflexivity | split; [reflexivity | discriminate]]).
  - exists (Raised e). split; [reflexivity|]. split; [reflexivity|].
    now intros e' [= ->].
Qed.

Lemma create_memory_appends_last_message_witness :
  exists o,
    create_memory be_echo_payload req_two_messages w0
    = (o, record (Call (CreateEvent
                          (append_args w0 req_two_messages
                             (mkMessage (PStr "assistant") (PStr "hi there"))))) w0) /\
    dict_get (append_args w0 req_two_messages
                (mkMessage (PStr "assistant") (PStr "hi there"))) "eventTimestamp" = None /\
    (forall e,
       respond be_echo_payload (ncalls (trace w0))
         (CreateEvent (append_args w0 req_two_messages
                         (mkMessage (PStr "assistant") (PStr "hi there"))))
       = Raised e -> o = Raised e).
Proof.
  apply (create_memory_appends_last_message be_echo_payload req_two_messages w0
           [mkMessage (PStr "user") (PStr "hello")]
           (mkMessage (PStr "assistant") (PStr "hi there"))).
  reflexivity.
Defined.

(** X8. [create_memory] reads the role of the acknowledged event at
    [payload[0]['conversational']['role']] and its text at
    [payload[0]['content']['text']].  So it returns a [Memory] when the
    first payload item has a [content] entry of its own beside
    [conversational]; and when that item has no key [content], as the
    payload the client itself sends has none, it raises [KeyError] after the
    event has been appended. *)
Theorem create_memory_reads_acknowledgement
    (be : backend) (request : CreateMemoryRequest) (w : world)
    (earlier : list Message) (newest : Message)
    (ack ev item conv : dict) (others : list pyval) (r_role : pyval) :
  messages (session_context request) = (earlier ++ [newest])%list ->
  respond be (ncalls (trace w)) (CreateEvent (append_args w request newest))
  = Returned (PDict ack) ->
  dict_get ack "event" = Some (PDict ev) ->
  dict_get ev "payload" = Some (PList (PDict item :: others)) ->
  dict_get item "conversational" = Some (PDict conv) ->
  dict_get conv "role" = Some r_role ->
  (forall cont r_text,
     dict_get item "content" = Some (PDict cont) ->
     dict_get cont "text" = Some r_text ->
     create_memory be request w
     = (Returned (mkMemory r_role r_text),
        record (Call (CreateEvent (append_args w request newest))) w)) /\
  (dict_get item "content" = None ->
   create_memory be request w
   = (Raised (mkExn KeyError "content"),
      record (Call (CreateEvent (append_args w request newest))) w)).
Proof.
  intros Hm Hack Hev Hp Hconv Hrole.
  assert (Hrun : create_memory be request w
                 = (cont <- lift (getitem (PDict item) "content") ;;
                    r_text <- lift (getitem cont "text") ;;
                    ret (mkMemory r_role r_text))
                     (record (Call (CreateEvent (append_args w request newest))) w)).
  { unfold create_memory.
    unfold bind at 1. unfold lift at 1. rewrite Hm, list_last_snoc.
    unfold bind at 1. unfold load_global_memory_id at 1.
    unfold bind at 1. unfold invoke at 1. fold (append_args w request newest).
    rewrite Hack.
    unfold bind at 1. unfold lift at 1. cbn [getitem]. rewrite Hev.
    unfold bind at 1. unfold lift at 1. cbn [getitem]. rewrite Hp.
    unfold bind at 1. unfold lift at 1. cbn [getitem0].
    unfold bind at 1. unfold lift at 1. cbn [getitem]. rewrite Hconv.
    unfold bind at 1. unfold lift at 1. cbn [getitem]. rewrite Hrole.
    unfold bind at 1. unfold lift at 1.
    unfold bind at 1. unfold lift at 1. cbn [getitem0].
    reflexivity. }
  rewrite Hrun. split.
  - intros cont r_text Hcont Htext.
    unfold bind, lift, ret. cbn [getitem]. rewrite Hcont. cbn [getitem]. now rewrite Htext.
  - intros Hnone. unfold bind, lift. cbn [getitem]. now rewrite Hnone.
Qed.

Lemma create_memory_reads_acknowledgement_witness :
  create_memory be_echo_payload req_two_messages w0
  = (Raised (mkExn KeyError "content"),
     record (Call (CreateEvent
                     (append_args w0 req_two_messages
                        (mkMessage (PStr "assistant") (PStr "hi there"))))) w0).
Proof.
  refine (proj2 (create_memory_reads_acknowledgement be_echo_payload req_two_messages w0
           [mkMessage (PStr "user") (PStr "hello")]
           (mkMessage (PStr "assistant") (PStr "hi there"))
           [("event",
             PDict [("sessionId", PStr "s-1");
                    ("payload",
                     PList [PDict [("conversational",
                                    PDict [("content", PDict [("text", PStr "hi there")]);
                                           ("role", PStr "assistant")])]])])]
           [("sessionId", PStr "s-1");
            ("payload",
             PList [PDict [("conversational",
                            PDict [("content", PDict [("text", PStr "hi there")]);
                                   ("role", PStr "assistant")])]])]
           [("conversational",
             PDict [("content", PDict [("text", PStr "hi there")]);
                    ("role", PStr "assistant")])]
           [("content", PDict [("text", PStr "hi there")]); ("role", PStr "assistant")]
           [] (PStr "assistant")
           eq_refl eq_refl eq_refl eq_refl eq_refl eq_refl) eq_refl).
Defined.

(** ** Session initialization *)

(** X9. Whatever the backend answers, [initialize_session] issues exactly
    one backend call, the [create_event] announcing the session; an error
    of that call comes out unchanged; and a context is returned only for an
    acknowledgement with an [event] that has [sessionId] and [actorId], and
    then carries those two values as they came back (the actor id of the
    acknowledgement, not the one passed in) and the single fixed
    message. *)
Theorem initialize_session_outcomes (be : backend) (actor_id : pyval) (w : world) :
  let c := CreateEvent (init_event_args w actor_id) in
  exists o,
    initialize_session be actor_id w = (o, record (Call c) w) /\
    (forall e, respond be (ncalls (trace w)) c = Raised e -> o = Raised e) /\
    (forall ctx, o = Returned ctx ->
       exists ack ev,
         respond be (ncalls (trace w)) c = Returned ack /\
         getitem ack "event" = Returned ev /\
         getitem ev "sessionId" = Returned (sc_session_id ctx) /\
         getitem ev "actorId" = Returned (sc_user_id ctx) /\
         ctx = fresh_context (sc_session_id ctx) (sc_user_id ctx)).
Proof.
  intros c. unfold initialize_session.
  unfold bind at 1. unfold load_global_memory_id at 1.
  unfold bind at 1. unfold datetime_now at 1.
  unfold bind at 1. unfold invoke at 1. fold (init_event_args w actor_id). fold c.
  destruct (respond be (ncalls (trace w)) c) as [ack|e].
  - unfold bind at 1. unfold lift at 1.
    destruct (getitem ack "event") as [ev|e] eqn:Eev.
    + unfold bind at 1. unfold lift at 1.
      destruct (getitem ev "sessionId") as [sid|e] eqn:Esid.
      * unfold bind at 1. unfold lift at 1.
        destruct (getitem ev "actorId") as [uid|e] eqn:Euid.
        -- exists (Returned (fresh_context sid uid)). split; [reflexivity|].
           split; [discriminate|].
           intros ctx [= <-]. exists ack, ev. cbn. repeat split; assumption.
        -- exists (Raised e). repeat split; discriminate.
      * exists (Raised e). repeat split; discriminate.
    + exists (Raised e). repeat split; discriminate.
  - exists (Raised e). split; [reflexivity|]. split; [now intros e' [= ->] | discriminate].
Qed.

(** ** The scan of the session listing *)

Lemma scan_sessions_selects_first_latest_witness :
  exists r,
    scan_sessions [summary_read "s-a" 100; summary_read "s-b" 300;
                   summary_read "s-c" 200; summary_read "s-d" 300]
                  PNone (PDatetime false 0) w0
    = (Returned r, w0) /\
    ((r = PNone /\
      Forall (fun it => (snd it <= 0)%Z)
             [(PStr "s-a", 100%Z); (PStr "s-b", 300%Z); (PStr "s-c", 200%Z); (PStr "s-d", 300%Z)]) \/
     (exists pre id t post,
        [(PStr "s-a", 100%Z); (PStr "s-b", 300%Z); (PStr "s-c", 200%Z); (PStr "s-d", 300%Z)]
        = (pre ++ (id, t) :: post)%list /\ r = id /\ (0 < t)%Z /\
        Forall (fun it => (snd it < t)%Z) pre /\
        Forall (fun it => (snd it <= t)%Z) post)).
Proof.
  apply (scan_sessions_selects_first_latest
           [summary_read "s-a" 100; summary_read "s-b" 300;
            summary_read "s-c" 200; summary_read "s-d" 300]
           [(PStr "s-a", 100%Z); (PStr "s-b", 300%Z); (PStr "s-c", 200%Z); (PStr "s-d", 300%Z)]).
  repeat constructor; eexists; repeat split; reflexivity.
Defined.

(** * Provisioning: [create_memory_provider] and [_get_agentcore_memory_id]

    Lines 65-185 of agentcore_memory_client.py.  Besides the data-plane
    calls above, provisioning talks to the control plane ([create_memory],
    [list_memories]) and to the parameter store. *)

Module Provision.

(** ** More of Python *)

Definition dquote : string :=
  String (Ascii.Ascii false true false false false true false false) EmptyString.

(** [v + k] for an int [k]: integers add (a bool counts as 0 or 1), any
    other left operand raises [TypeError]. *)
Definition py_add_int (v : pyval) (k : Z) : outcome Z :=
  match v with
  | PInt n => Returned (n + k)%Z
  | PBool b => Returned ((if b then 1 else 0) + k)%Z
  | PStr _ =>
      Raised (mkExn TypeError
                ("can only concatenate str (not " ++ dquote ++ "int" ++ dquote ++ ") to str"))
  | PList _ =>
      Raised (mkExn TypeError
                ("can only concatenate list (not " ++ dquote ++ "int" ++ dquote ++ ") to list"))
  | PNone => Raised (mkExn TypeError "unsupported operand type(s) for +: 'NoneType' and 'int'")
  | PDict _ => Raised (mkExn TypeError "unsupported operand type(s) for +: 'dict' and 'int'")
  | PDatetime _ _ =>
      Raised (mkExn TypeError "unsupported operand type(s) for +: 'datetime.datetime' and 'int'")
  end.

(** [s.replace(a, b)] for single characters. *)
Fixpoint replace_char (a b : ascii) (s : string) : string :=
  match s with
  | EmptyString => EmptyString
  | String c rest =>
      String (if Ascii.eqb c a then b else c) (replace_char a b rest)
  end.

(** [s.split(sep)[0]] for a single character: what precedes the first
    separator, the whole string when there is none. *)
Fixpoint split_head (sep : ascii) (s : string) : string :=
  match s with
  | EmptyString => EmptyString
  | String c rest =>
      if Ascii.eqb c sep then EmptyString else String c (split_head sep rest)
  end.

(** [v.split('-')[0]]: [split] is a method of strings. *)
Definition py_split_head (v : pyval) : outcome string :=
  match v with
  | PStr s => Returned (split_head "-" s)
  | _ => Raised (mkExn AttributeError "object has no attribute 'split'")
  end.

(** ** Control plane, parameter store and their world *)

(** The calls of provisioning that are not data-plane calls.  The last one
    is [get_memory(memoryId=c)] where [c] is the control-plane client object
    itself (see the call at line 155). *)
Inductive ctl_call : Type :=
| CreateMemory (args : dict)
| ListMemories
| GetParametersByPath (path : string)
| PutParameter (args : dict)
| GetMemoryOfClient.

(** Answers by the number of such calls already served, as for
    [backend]. *)
Record ctl_backend : Type := mkCtlBackend {
  ctl_respond : nat -> ctl_call -> outcome pyval
}.

Record pworld : Type := mkPWorld {
  base : world;
  ctl_log : list ctl_call
}.

Definition P (A : Type) : Type := pworld -> outcome A * pworld.

Definition retP {A : Type} (a : A) : P A := fun pw => (Returned a, pw).

Definition raiseP {A : Type} (e : exn) : P A := fun pw => (Raised e, pw).

Definition bindP {A B : Type} (m : P A) (k : A -> P B) : P B :=
  fun pw => match m pw with
            | (Returned a, pw') => k a pw'
            | (Raised e, pw') => (Raised e, pw')
            end.

Notation "x <~ m ;; k" := (bindP m (fun x => k))
  (at level 61, m at next level, right associativity).
Notation "m ;;~ k" := (bindP m (fun _ => k))
  (at level 61, right associativity).

Definition liftO {A : Type} (o : outcome A) : P A := fun pw => (o, pw).

(** A computation of the client run on the data-plane part of the world. *)
Definition liftM {A : Type} (m : M A) : P A :=
  fun pw => let (o, w') := m (base pw) in (o, mkPWorld w' (ctl_log pw)).

Definition try_exceptP {A : Type} (body : P A) (handler : exn -> P A) : P A :=
  fun pw => match body pw with
            | (Raised e, pw') => handler e pw'
            | r => r
            end.

(** The first argument of a call can be a value or the control-plane
    client object. *)
Inductive pyobj : Type :=
| Val (v : pyval)
| ControlClient.

(** Modelled from the spec: [CreateAgentCoreMemoryProviderRequest] (in
    memory_models, absent) with the two attributes it is built with at
    lines 80-83. *)
Record CreateRequest : Type := mkCreateRequest {
  environment : pyval;
  retention_days : pyval
}.

Section Provisioning.

Variable be : backend.
Variable ctl : ctl_backend.

(** The module constants read from the process environment (lines 53-54). *)
Variable ENVIRONMENT : string.
Variable MEMORY_RETENTION_DAYS : Z.

(** [str(v)] for a value that is not a string, and for the client object;
    the texts are Python's and are not spelt out here. *)
Variable py_repr : pyval -> string.
Variable client_repr : string.

Definition ctl_invoke (c : ctl_call) : P pyval :=
  fun pw => (ctl_respond ctl (List.length (ctl_log pw)) c,
             mkPWorld (base pw) (ctl_log pw ++ [c])).

Definition load_global : P pyval := liftM load_global_memory_id.

Definition store_global (v : pyval) : P unit := liftM (store_global_memory_id v).

(** [f"{x}"]. *)
Definition obj_str (x : pyobj) : string :=
  match x with
  | Val (PStr s) => s
  | Val v => py_repr v
  | ControlClient => client_repr
  end.

(** [agentcore_control_client.get_memory(memoryId=memory_id)]. *)
Definition get_memory_of (memory_id : pyobj) : P pyval :=
  match memory_id with
  | Val v => liftM (invoke be (GetMemory v))
  | ControlClient => ctl_invoke GetMemoryOfClient
  end.

(** The loop of [_wait_for_memory_provider_creation] (lines 334-360) for
    arguments of any type: [memory_id] is whatever the caller passed first,
    [limit] the integer value of [max_attempts]. *)
Fixpoint poll_creation (memory_id : pyobj) (limit delay_seconds : Z)
    (attempts : list Z) : P pyval :=
  match attempts with
  | [] =>
      raiseP (mkExn TimeoutError
                ("Memory " ++ obj_str memory_id
                 ++ " did not become available within the timeout period"))
  | attempt :: rest =>
      found <~ try_exceptP
                 (r <~ get_memory_of memory_id ;;
                  memory_details <~ liftO (getitem r "memory") ;;
                  status <~ liftO (getitem memory_details "status") ;;
                  if eq_str status "ACTIVE"
                  then retP (Some memory_details)
                  else retP None)
                 (fun e =>
                    if str_in "Memory not found" (str_of_exn e)
                       || str_in "does not exist" (str_of_exn e)
                    then retP None
                    else retP None) ;;
      match found with
      | Some memory_details => retP memory_details
      | None =>
          (if (attempt <? limit)%Z then liftM (sleep delay_seconds) else retP tt) ;;~
          poll_creation memory_id limit delay_seconds rest
      end
  end.

(** A call of [_wait_for_memory_provider_creation] with its parameters
    bound as Python binds them.  [range(1, max_attempts + 1)] is evaluated
    before the loop and outside its [try]. *)
Definition call_wait_for_memory_provider_creation
    (memory_id : pyobj) (max_attempts : pyval) (delay_seconds : Z) : P pyval :=
  stop <~ liftO (py_add_int max_attempts 1) ;;
  poll_creation memory_id (stop - 1) delay_seconds (attempts_range (stop - 1)).

Definition memory_name : string := replace_char "-" "_" ENVIRONMENT.

Definition param_name : string := "/" ++ ENVIRONMENT ++ "/agentcore_memory_id".

Definition memory_strategies_default : pyval :=
  PList
    [PDict [("semanticMemoryStrategy",
             PDict [("name", PStr "semantic_memory");
                    ("description",
                     PStr "Use this for long-term memories to be retrieved by semantic similarity for future reference and continuous improvement.")])];
     PDict [("summaryMemoryStrategy",
             PDict [("name", PStr "summary_memory");
                    ("description",
                     PStr "Use this to summarize learnings from a task for future reference and continuous improvement.")])];
     PDict [("userPreferenceMemoryStrategy",
             PDict [("name", PStr "user_preferences_memory");
                    ("description",
                     PStr "Use this to store preferences from users for future reference and continuous improvement.")])]].

Definition create_memory_args (request : CreateRequest) : dict :=
  [("name", PStr memory_name);
   ("description", PStr ("AgentCore memory for " ++ ENVIRONMENT ++ " environment"));
   ("eventExpiryDuration", retention_days request);
   ("memoryStrategies", memory_strategies_default)].

Definition put_parameter_args (value : pyval) : dict :=
  [("Name", PStr param_name); ("Value", value);
   ("Type", PStr "String"); ("Overwrite", PBool true)].

(** The [for mem in memories] loop of the handler (lines 179-181). *)
Fixpoint adopt_matching (memories : list pyval) : P unit :=
  match memories with
  | [] => retP tt
  | mem :: rest =>
      id <~ liftO (getitem mem "id") ;;
      head <~ liftO (py_split_head id) ;;
      (if head =? memory_name
       then id' <~ liftO (getitem mem "id") ;; store_global id'
       else retP tt) ;;~
      adopt_matching rest
  end.

(** [create_memory_provider] (lines 102-185).  At line 155 the wait is
    called through the class with two positional arguments, the client and
    the id; the function takes [memory_id] first and [max_attempts] second
    (line 310), so the client is bound to [memory_id] and the id to
    [max_attempts]. *)
Definition create_memory_provider (request : CreateRequest) : P pyval :=
  try_exceptP
    (create_response <~ ctl_invoke (CreateMemory (create_memory_args request)) ;;
     m <~ liftO (getitem create_response "memory") ;;
     memory_id <~ liftO (getitem m "id") ;;
     call_wait_for_memory_provider_creation ControlClient memory_id 30 ;;~
     r <~ liftM (invoke be (GetMemory memory_id)) ;;
     m' <~ liftO (getitem r "memory") ;;
     status <~ liftO (getitem m' "status") ;;
     (if negb (eq_str status "ACTIVE")
      then raiseP (mkExn Exception ("Failed to create memory " ++ memory_name))
      else retP tt) ;;~
     ctl_invoke (PutParameter (put_parameter_args memory_id)) ;;~
     store_global memory_id)
    (fun create_error =>
       if str_in "already exists" (str_of_exn create_error) then
         r <~ ctl_invoke ListMemories ;;
         memories_obj <~ liftO (getitem r "memories") ;;
         memories <~ liftO (py_iter memories_obj) ;;
         adopt_matching memories
       else raiseP create_error) ;;~
  load_global.

(** [_get_agentcore_memory_id] (lines 65-100).  At line 87 the wait is
    called with the id alone, so its two other parameters take their
    defaults, 20 and 30. *)
Definition _get_agentcore_memory_id : P pyval :=
  g <~ load_global ;;
  (if negb (truthy g) then
     try_exceptP
       (r <~ ctl_invoke (GetParametersByPath param_name) ;;
        parameters <~ liftO (getitem r "Parameters") ;;
        n <~ liftO (py_len parameters) ;;
        if (0 <? n)%nat then
          p0 <~ liftO (getitem0 parameters) ;;
          v <~ liftO (getitem p0 "Value") ;;
          store_global v
        else
          response <~ create_memory_provider
                        (mkCreateRequest (PStr ENVIRONMENT) (PInt MEMORY_RETENTION_DAYS)) ;;
          call_wait_for_memory_provider_creation (Val response) (PInt 20) 30 ;;~
          store_global response ;;~
          g' <~ load_global ;;
          ctl_invoke (PutParameter (put_parameter_args g')) ;;~
          retP tt)
       (fun e => raiseP e)
   else retP tt) ;;~
  load_global.

(** ** Vocabulary of the provisioning properties *)

(** The world with the global set to [v]. *)
Definition with_global (pw : pworld) (v : pyval) : pworld :=
  mkPWorld (mkWorld v (clock (base pw)) (trace (base pw))) (ctl_log pw).

(** The world after one more control-plane or parameter-store call. *)
Definition logged (pw : pworld) (c : ctl_call) : pworld :=
  mkPWorld (base pw) (ctl_log pw ++ [c]).

(** A listed memory with a string id. *)
Definition listed_as (mem : pyval) (id : string) : Prop :=
  exists d, mem = PDict d /\ dict_get d "id" = Some (PStr id).

(** What the wait raises when its second positional argument is a
    string. *)
Definition str_plus_int_error : exn :=
  mkExn TypeError
        ("can only concatenate str (not " ++ dquote ++ "int" ++ dquote ++ ") to str").

(** ** Facts *)

Lemma with_global_same (pw : pworld) :
  with_global pw (agentcore_memory_id (base pw)) = pw.
Proof.
  destruct pw as [[g c t] l]. reflexivity.
Qed.

Lemma split_head_replaced (a b : ascii) (s rest : string) :
  a <> b ->
  split_head a (replace_char a b s ++ String a rest) = replace_char a b s.
Proof.
  intros Hab. induction s as [|c s IH]; cbn [replace_char append split_head].
  - now rewrite Ascii.eqb_refl.
  - destruct (Ascii.eqb c a) eqn:E.
    + destruct (Ascii.eqb b a) eqn:E'.
      * apply Ascii.eqb_eq in E'. congruence.
      * now rewrite IH.
    + rewrite E. now rewrite IH.
Qed.

Lemma split_head_no_sep (a : ascii) (s : string) :
  split_head a (split_head a s) = split_head a s.
Proof.
  induction s as [|c s IH]; [reflexivity|]. cbn [split_head].
  destruct (Ascii.eqb c a) eqn:E; [reflexivity|].
  cbn [split_head]. now rewrite E, IH.
Qed.




Lemma create_with_string_id (request : CreateRequest) (pw : pworld)
    (resp m : dict) (id : string) :
  ctl_respond ctl (List.length (ctl_log pw)) (CreateMemory (create_memory_args request))
  = Returned (PDict resp) ->
  dict_get resp "memory" = Some (PDict m) ->
  dict_get m "id" = Some (PStr id) ->
  create_memory_provider request pw
  = (Raised str_plus_int_error, logged pw (CreateMemory (create_memory_args request))).
Proof.
  intros Hresp Hm Hid. unfold create_memory_provider.
  unfold bindP at 1. unfold try_exceptP at 1.
  unfold bindP at 1. unfold ctl_invoke at 1. rewrite Hresp.
  unfold bindP at 1. unfold liftO at 1. cbn [getitem]. rewrite Hm.
  unfold bindP at 1. unfold liftO at 1. cbn [getitem]. rewrite Hid.
  unfold bindP at 1. unfold call_wait_for_memory_provider_creation at 1.
  unfold bindP at 1. unfold liftO at 1. cbn [py_add_int].
  reflexivity.
Qed.

Lemma adopt_matching_last (memories : list pyval) (ids : list string) :
  Forall2 listed_as memories ids ->
  forall pw,
  exists g,
    adopt_matching memories pw = (Returned tt, with_global pw g) /\
    ((g = agentcore_memory_id (base pw) /\
      Forall (fun id => split_head "-" id <> memory_name) ids) \/
     (exists pre id post,
        ids = (pre ++ id :: post)%list /\ g = PStr id /\
        split_head "-" id = memory_name /\
        Forall (fun id' => split_head "-" id' <> memory_name) post)).
Proof.
  induction 1 as [|mem id memories ids (d & -> & Hid) _ IH]; intros pw.
  - exists (agentcore_memory_id (base pw)). rewrite with_global_same.
    split; [reflexivity | left; split; [reflexivity | constructor]].
  - cbn [adopt_matching].
    unfold bindP at 1. unfold liftO at 1. cbn [getitem]. rewrite Hid.
    unfold bindP at 1. unfold liftO at 1. cbn [py_split_head].
    unfold bindP at 1.
    destruct (split_head "-" id =? memory_name) eqn:E.
    + apply String.eqb_eq in E.
      unfold bindP at 1. unfold liftO at 1.
      unfold store_global, liftM, store_global_memory_id. cbn [base ctl_log].
      fold (with_global pw (PStr id)).
      destruct (IH (with_global pw (PStr id))) as (g & Hrun & Hsel).
      exists g. split; [rewrite Hrun; reflexivity|].
      right. destruct Hsel as [[-> Hnone] | (pre & id' & post & -> & -> & Hmatch & Hpost)].
      * exists [], id, ids. repeat split; auto.
      * exists (id :: pre), id', post. repeat split; auto.
    + apply String.eqb_neq in E. unfold retP at 1.
      destruct (IH pw) as (g & Hrun & Hsel).
      exists g. split; [exact Hrun|].
      destruct Hsel as [[-> Hnone] | (pre & id' & post & -> & -> & Hmatch & Hpost)].
      * left. split; [reflexivity | now constructor].
      * right. exists (id :: pre), id', post. repeat split; auto.
Qed.

Lemma resolve_cached (pw : pworld) :
  truthy (agentcore_memory_id (base pw)) = true ->
  _get_agentcore_memory_id pw = (Returned (agentcore_memory_id (base pw)), pw).
Proof.
  intros Hg. destruct pw as [w l]. cbn [base] in Hg.
  unfold _get_agentcore_memory_id, bindP, load_global, liftM, load_global_memory_id.
  cbn [base ctl_log]. rewrite Hg. reflexivity.
Qed.

(** ** Properties of [create_memory_provider] *)

(** X11. When the control plane creates the resource and answers with a
    string id, [create_memory_provider] raises [TypeError]: the wait at
    line 155 receives the id as [max_attempts], and [max_attempts + 1] fails
    on a string.  The create call is the only call made: the status is never
    queried, the parameter store is never written and the global id is left
    as it was. *)
Theorem create_memory_provider_fails_after_create
    (request : CreateRequest) (pw : pworld) (resp m : dict) (id : string) :
  ctl_respond ctl (List.length (ctl_log pw)) (CreateMemory (create_memory_args request))
  = Returned (PDict resp) ->
  dict_get resp "memory" = Some (PDict m) ->
  dict_get m "id" = Some (PStr id) ->
  create_memory_provider request pw
  = (Raised str_plus_int_error,
     mkPWorld (base pw) (ctl_log pw ++ [CreateMemory (create_memory_args request)])).
Proof.
  apply create_with_string_id.
Qed.

(** X12. When the create call raises an error whose text does not contain
    "already exists", [create_memory_provider] raises that same error after
    this one call. *)
Theorem create_memory_provider_propagates_create_error
    (request : CreateRequest) (pw : pworld) (e : exn) :
  ctl_respond ctl (List.length (ctl_log pw)) (CreateMemory (create_memory_args request))
  = Raised e ->
  str_in "already exists" (str_of_exn e) = false ->
  create_memory_provider request pw
  = (Raised e, logged pw (CreateMemory (create_memory_args request))).
Proof.
  intros He Hne. unfold create_memory_provider.
  unfold bindP at 1. unfold try_exceptP at 1.
  unfold bindP at 1. unfold ctl_invoke at 1. rewrite He, Hne. reflexivity.
Qed.

Lemma create_adopts_listed
    (request : CreateRequest) (pw : pworld) (e : exn)
    (resp : dict) (memories : list pyval) (ids : list string) :
  ctl_respond ctl (List.length (ctl_log pw)) (CreateMemory (create_memory_args request))
  = Raised e ->
  str_in "already exists" (str_of_exn e) = true ->
  ctl_respond ctl (S (List.length (ctl_log pw))) ListMemories = Returned (PDict resp) ->
  dict_get resp "memories" = Some (PList memories) ->
  Forall2 listed_as memories ids ->
  exists g,
    create_memory_provider request pw
    = (Returned g,
       with_global (logged (logged pw (CreateMemory (create_memory_args request)))
                           ListMemories) g) /\
    ((g = agentcore_memory_id (base pw) /\
      Forall (fun id => split_head "-" id <> memory_name) ids) \/
     (exists pre id post,
        ids = (pre ++ id :: post)%list /\ g = PStr id /\
        split_head "-" id = memory_name /\
        Forall (fun id' => split_head "-" id' <> memory_name) post)).
Proof.
  intros He Hae Hlist Hmems Hids.
  set (pw2 := logged (logged pw (CreateMemory (create_memory_args request))) ListMemories).
  destruct (adopt_matching_last memories ids Hids pw2) as (g & Hrun & Hsel).
  exists g. split; [|exact Hsel].
  unfold create_memory_provider.
  unfold bindP at 1. unfold try_exceptP at 1.
  unfold bindP at 1. unfold ctl_invoke at 1. rewrite He, Hae.
  unfold bindP at 1. unfold ctl_invoke at 1. cbn [ctl_log base].
  rewrite length_app. cbn [List.length]. rewrite Nat.add_1_r, Hlist.
  unfold bindP at 1. unfold liftO at 1. cbn [getitem]. rewrite Hmems.
  unfold bindP at 1. unfold liftO at 1. cbn [py_iter].
  change (mkPWorld (base pw)
            ((ctl_log pw ++ [CreateMemory (create_memory_args request)]) ++ [ListMemories]))
    with pw2.
  rewrite Hrun. reflexivity.
Qed.

(** X13. When the create call raises an error that says "already exists",
    [create_memory_provider] lists the memories and, the listed memories
    having string ids, returns the id of the last one whose part before the
    first '-' is the memory name, which it also stores in the global; when
    no listed id is such, it returns the global as it was.  The two calls
    are the only ones made. *)
Theorem create_memory_provider_adopts_existing
    (request : CreateRequest) (pw : pworld) (e : exn)
    (resp : dict) (memories : list pyval) (ids : list string) :
  ctl_respond ctl (List.length (ctl_log pw)) (CreateMemory (create_memory_args request))
  = Raised e ->
  str_in "already exists" (str_of_exn e) = true ->
  ctl_respond ctl (S (List.length (ctl_log pw))) ListMemories = Returned (PDict resp) ->
  dict_get resp "memories" = Some (PList memories) ->
  Forall2 listed_as memories ids ->
  exists g,
    create_memory_provider request pw
    = (Returned g,
       with_global (logged (logged pw (CreateMemory (create_memory_args request)))
                           ListMemories) g) /\
    ((g = agentcore_memory_id (base pw) /\
      Forall (fun id => split_head "-" id <> memory_name) ids) \/
     (exists pre id post,
        ids = (pre ++ id :: post)%list /\ g = PStr id /\
        split_head "-" id = memory_name /\
        Forall (fun id' => split_head "-" id' <> memory_name) post)).
Proof.
  apply create_adopts_listed.
Qed.

(** X14. The memory name is the environment name with every '-' replaced,
    so it is what precedes the first '-' of any id made of the name, a '-'
    and a suffix: such an id is one the adoption loop recognises. *)
Theorem memory_name_is_id_prefix (suffix : string) :
  split_head "-" (memory_name ++ String "-" suffix) = memory_name /\
  split_head "-" memory_name = memory_name.
Proof.
  split.
  - apply split_head_replaced. discriminate.
  - unfold memory_name. induction ENVIRONMENT as [|c s IH]; [reflexivity|].
    cbn [replace_char split_head].
    destruct (Ascii.eqb c "-") eqn:E.
    + cbn. now rewrite IH.
    + rewrite E. now rewrite IH.
Qed.

(** ** Properties of [_get_agentcore_memory_id] *)

(** X15. When the global id is unset and the parameter store holds
    parameters under the path of the environment, [_get_agentcore_memory_id]
    returns the value of the first one after that single lookup and stores
    it in the global; when the value is truthy, a second run returns it with
    no call at all. *)
Theorem get_agentcore_memory_id_caches_parameter
    (pw : pworld) (r p0 : dict) (others : list pyval) (v : pyval) :
  truthy (agentcore_memory_id (base pw)) = false ->
  ctl_respond ctl (List.length (ctl_log pw)) (GetParametersByPath param_name)
  = Returned (PDict r) ->
  dict_get r "Parameters" = Some (PList (PDict p0 :: others)) ->
  dict_get p0 "Value" = Some v ->
  let pw' := with_global (logged pw (GetParametersByPath param_name)) v in
  _get_agentcore_memory_id pw = (Returned v, pw') /\
  (truthy v = true -> _get_agentcore_memory_id pw' = (Returned v, pw')).
Proof.
  intros Hg Hr Hp Hv pw'. split.
  - unfold _get_agentcore_memory_id.
    unfold bindP at 1. unfold load_global at 1. unfold liftM at 1.
    unfold load_global_memory_id at 1.
    unfold bindP at 1. rewrite Hg. cbn [negb].
    unfold try_exceptP at 1.
    unfold bindP at 1. unfold ctl_invoke at 1. cbn [ctl_log base]. rewrite Hr.
    unfold bindP at 1. unfold liftO at 1. cbn [getitem]. rewrite Hp.
    unfold bindP at 1. unfold liftO at 1. cbn [py_len List.length Nat.ltb Nat.leb].
    unfold bindP at 1. unfold liftO at 1. cbn [getitem0].
    unfold bindP at 1. unfold liftO at 1. cbn [getitem]. rewrite Hv.
    reflexivity.
  - intros Hv'. apply (resolve_cached pw'). exact Hv'.
Qed.

(** X16. When the global id is unset, the parameter store holds nothing
    under the path, and the control plane creates the resource under a
    string id, [_get_agentcore_memory_id] raises the [TypeError] of
    [create_memory_provider]: after the lookup and the create call nothing
    else happens, the parameter store is not written and the global stays
    unset. *)
Theorem get_agentcore_memory_id_fails_on_fresh_resource
    (pw : pworld) (r resp m : dict) (id : string) :
  truthy (agentcore_memory_id (base pw)) = false ->
  ctl_respond ctl (List.length (ctl_log pw)) (GetParametersByPath param_name)
  = Returned (PDict r) ->
  dict_get r "Parameters" = Some (PList []) ->
  ctl_respond ctl (S (List.length (ctl_log pw)))
    (CreateMemory (create_memory_args
                     (mkCreateRequest (PStr ENVIRONMENT) (PInt MEMORY_RETENTION_DAYS))))
  = Returned (PDict resp) ->
  dict_get resp "memory" = Some (PDict m) ->
  dict_get m "id" = Some (PStr id) ->
  _get_agentcore_memory_id pw
  = (Raised str_plus_int_error,
     logged (logged pw (GetParametersByPath param_name))
            (CreateMemory (create_memory_args
                             (mkCreateRequest (PStr ENVIRONMENT)
                                              (PInt MEMORY_RETENTION_DAYS))))).
Proof.
  intros Hg Hr Hp Hresp Hm Hid.
  unfold _get_agentcore_memory_id.
  unfold bindP at 1. unfold load_global at 1. unfold liftM at 1.
  unfold load_global_memory_id at 1.
  unfold bindP at 1. rewrite Hg. cbn [negb].
  unfold try_exceptP at 1.
  unfold bindP at 1. unfold ctl_invoke at 1. cbn [ctl_log base]. rewrite Hr.
  unfold bindP at 1. unfold liftO at 1. cbn [getitem]. rewrite Hp.
  unfold bindP at 1. unfold liftO at 1. cbn [py_len List.length Nat.ltb Nat.leb].
  unfold bindP at 1.
  rewrite (create_with_string_id _ _ resp m id); try assumption.
  - destruct pw; reflexivity.
  - cbn [ctl_log]. rewrite length_app. cbn [List.length]. rewrite Nat.add_1_r.
    exact Hresp.
Qed.



End Provisioning.

(** ** The provisioning properties on scenarios *)

Definition env_name : string := "AgentCore-AgentPath".

Definition adopted_id : string := "AgentCore_AgentPath-abc123".

Definition repr_unused (v : pyval) : string := "<value>".

Definition pw0 : pworld := mkPWorld (mkWorld PNone 1700000000 []) [].

(** Nothing stored; the create call succeeds. *)
Definition ctl_fresh : ctl_backend :=
  mkCtlBackend (fun _ c =>
    match c with
    | GetParametersByPath _ => Returned (PDict [("Parameters", PList [])])
    | CreateMemory _ =>
        Returned (PDict [("memory", PDict [("id", PStr adopted_id);
                                           ("status", PStr "CREATING")])])
    | _ => unexpected_call
    end).

(** The create call is refused. *)
Definition ctl_denied : ctl_backend :=
  mkCtlBackend (fun _ c =>
    match c with
    | CreateMemory _ => Raised (mkExn Exception "AccessDeniedException: not authorized")
    | _ => unexpected_call
    end).

(** Nothing stored; the resource exists already and is listed second. *)
Definition ctl_existing : ctl_backend :=
  mkCtlBackend (fun _ c =>
    match c with
    | GetParametersByPath _ => Returned (PDict [("Parameters", PList [])])
    | CreateMemory _ =>
        Raised (mkExn Exception "Memory with name AgentCore_AgentPath already exists")
    | ListMemories =>
        Returned (PDict [("memories",
                          PList [PDict [("id", PStr "Other_Env-zzz999")];
                                 PDict [("id", PStr adopted_id)]])])
    | PutParameter _ => Returned (PDict [("Version", PInt 1)])
    | GetMemoryOfClient => unexpected_call
    end).

(** The id is in the parameter store. *)
Definition ctl_stored : ctl_backend :=
  mkCtlBackend (fun _ c =>
    match c with
    | GetParametersByPath path =>
        Returned (PDict [("Parameters",
                          PList [PDict [("Name", PStr path); ("Value", PStr adopted_id)]])])
    | _ => unexpected_call
    end).

Definition default_request : CreateRequest := mkCreateRequest (PStr env_name) (PInt 30).

Lemma create_memory_provider_fails_after_create_witness :
  create_memory_provider be_never_ready ctl_fresh env_name repr_unused "<client>"
                         default_request pw0
  = (Raised str_plus_int_error,
     mkPWorld (base pw0) [CreateMemory (create_memory_args env_name default_request)]).
Proof.
  apply (create_memory_provider_fails_after_create
           be_never_ready ctl_fresh env_name repr_unused "<client>" default_request pw0
           [("memory", PDict [("id", PStr adopted_id); ("status", PStr "CREATING")])]
           [("id", PStr adopted_id); ("status", PStr "CREATING")] adopted_id);
    reflexivity.
Defined.

Lemma create_memory_provider_propagates_create_error_witness :
  create_memory_provider be_never_ready ctl_denied env_name repr_unused "<client>"
                         default_request pw0
  = (Raised (mkExn Exception "AccessDeniedException: not authorized"),
     logged pw0 (CreateMemory (create_memory_args env_name default_request))).
Proof.
  apply (create_memory_provider_propagates_create_error
           be_never_ready ctl_denied env_name repr_unused "<client>" default_request pw0);
    reflexivity.
Defined.

Lemma create_memory_provider_adopts_existing_witness :
  exists g,
    create_memory_provider be_never_ready ctl_existing env_name repr_unused "<client>"
                           default_request pw0
    = (Returned g,
       with_global (logged (logged pw0 (CreateMemory (create_memory_args env_name default_request)))
                           ListMemories) g) /\
    ((g = PNone /\
      Forall (fun id => split_head "-" id <> memory_name env_name)
             ["Other_Env-zzz999"; adopted_id]) \/
     (exists pre id post,
        ["Other_Env-zzz999"; adopted_id] = (pre ++ id :: post)%list /\ g = PStr id /\
        split_head "-" id = memory_name env_name /\
        Forall (fun id' => split_head "-" id' <> memory_name env_name) post)).
Proof.
  apply (create_memory_provider_adopts_existing
           be_never_ready ctl_existing env_name repr_unused "<client>" default_request pw0
           (mkExn Exception "Memory with name AgentCore_AgentPath already exists")
           [("memories", PList [PDict [("id", PStr "Other_Env-zzz999")];
                                PDict [("id", PStr adopted_id)]])]
           [PDict [("id", PStr "Other_Env-zzz999")]; PDict [("id", PStr adopted_id)]]
           ["Other_Env-zzz999"; adopted_id]); try reflexivity.
  repeat constructor; eexists; split; reflexivity.
Defined.

Lemma get_agentcore_memory_id_caches_parameter_witness :
  let pw' := with_global (logged pw0 (GetParametersByPath (param_name env_name)))
                         (PStr adopted_id) in
  _get_agentcore_memory_id be_never_ready ctl_stored env_name 30 repr_unused "<client>" pw0
  = (Returned (PStr adopted_id), pw') /\
  (truthy (PStr adopted_id) = true ->
   _get_agentcore_memory_id be_never_ready ctl_stored env_name 30 repr_unused "<client>" pw'
   = (Returned (PStr adopted_id), pw')).
Proof.
  apply (get_agentcore_memory_id_caches_parameter
           be_never_ready ctl_stored env_name 30 repr_unused "<client>" pw0
           [("Parameters",
             PList [PDict [("Name", PStr (param_name env_name));
                           ("Value", PStr adopted_id)]])]
           [("Name", PStr (param_name env_name)); ("Value", PStr adopted_id)] []
           (PStr adopted_id)); reflexivity.
Defined.

Lemma get_agentcore_memory_id_fails_on_fresh_resource_witness :
  _get_agentcore_memory_id be_never_ready ctl_fresh env_name 30 repr_unused "<client>" pw0
  = (Raised str_plus_int_error,
     logged (logged pw0 (GetParametersByPath (param_name env_name)))
            (CreateMemory (create_memory_args env_name default_request))).
Proof.
  apply (get_agentcore_memory_id_fails_on_fresh_resource
           be_never_ready ctl_fresh env_name 30 repr_unused "<client>" pw0
           [("Parameters", PList [])]
           [("memory", PDict [("id", PStr adopted_id); ("status", PStr "CREATING")])]
           [("id", PStr adopted_id); ("status", PStr "CREATING")] adopted_id);
    reflexivity.
Defined.


End Provision.

(** * The setup function: agentcore_memory_setup.py

    The Lambda handler of infrastructure/terraform/agentcore/functions and
    its two actions.  It has clients of its own, so its calls and its world
    are its own too. *)

Module Setup.

(** ** More of Python *)

(** What [json.dumps] accepts among the values modelled: everything but a
    datetime, at any depth. *)
Fixpoint json_serializable (v : pyval) : bool :=
  match v with
  | PDatetime _ _ => false
  | PList l => forallb json_serializable l
  | PDict d => forallb (fun kv => json_serializable (snd kv)) d
  | _ => true
  end.

(** The function raises [ValueError] besides the exceptions of [Py]. *)
Inductive error : Type :=
| Std (e : exn)
| ValueError (msg : string).

Definition str_of_error (e : error) : string :=
  match e with
  | Std e => str_of_exn e
  | ValueError msg => msg
  end.

Inductive result (A : Type) : Type :=
| Ok (a : A)
| Err (e : error).
Arguments Ok {A} a.
Arguments Err {A} e.

(** ** Calls and world *)

Inductive call : Type :=
| ListMemoryRecords (args : dict)
| ListSessions (args : dict)
| ListEvents (args : dict)
| DeleteEvent (args : dict).

(** Answers by the number of calls already served. *)
Record service : Type := mkService {
  answer : nat -> call -> outcome pyval
}.

(** The state is the log of the calls issued, oldest first. *)
Definition L (A : Type) : Type := list call -> result A * list call.

Definition retL {A : Type} (a : A) : L A := fun log => (Ok a, log).

Definition raiseL {A : Type} (e : error) : L A := fun log => (Err e, log).

Definition bindL {A B : Type} (m : L A) (k : A -> L B) : L B :=
  fun log => match m log with
             | (Ok a, log') => k a log'
             | (Err e, log') => (Err e, log')
             end.

Notation "x <: m ;; k" := (bindL m (fun x => k))
  (at level 61, m at next level, right associativity).
Notation "m ;;: k" := (bindL m (fun _ => k))
  (at level 61, right associativity).

Definition liftL {A : Type} (o : outcome A) : L A :=
  fun log => (match o with Returned a => Ok a | Raised e => Err (Std e) end, log).

Definition try_exceptL {A : Type} (body : L A) (handler : error -> L A) : L A :=
  fun log => match body log with
             | (Err e, log') => handler e log'
             | r => r
             end.

Section Functions.

Variable svc : service.

(** Module constants read from the process environment (lines 30-31). *)
Variable MEMORY_RETENTION_DAYS : Z.
Variable ENVIRONMENT : string.

(** The text [json.dumps] gives for a value it accepts, and [str] of a
    value that is not a string; the texts are Python's and are not spelt
    out here. *)
Variable json_text : pyval -> string.
Variable py_repr : pyval -> string.

Definition request (c : call) : L pyval :=
  fun log => (match answer svc (List.length log) c with
              | Returned v => Ok v
              | Raised e => Err (Std e)
              end, (log ++ [c])%list).

(** [json.dumps(v)]. *)
Definition json_dumps (v : pyval) : L string :=
  if json_serializable v then retL (json_text v)
  else raiseL (Std (mkExn TypeError "Object of type datetime is not JSON serializable")).

(** [f"{v}"]. *)
Definition py_str (v : pyval) : string :=
  match v with
  | PStr s => s
  | _ => py_repr v
  end.

Definition resource_name (environment : pyval) : string :=
  py_str environment ++ "-agentcore-memory".

Definition probe_args : dict := [("filters", PList []); ("maxResults", PInt 1)].

(** [provision_agentcore_memory] (lines 68-136); the two clients passed in
    are the service. *)
Definition provision_agentcore_memory (retention_days environment : pyval) : L pyval :=
  try_exceptL
    (try_exceptL
       (request (ListMemoryRecords probe_args) ;;: retL tt)
       (fun e =>
          if str_in "ResourceNotFoundException" (str_of_error e)
             || str_in "AccessDeniedException" (str_of_error e)
          then request (ListSessions probe_args) ;;: retL tt
          else raiseL e) ;;:
     body <: json_dumps
               (PDict [("message", PStr "AgentCore Memory provisioned successfully");
                       ("resourceName", PStr (resource_name environment));
                       ("retentionDays", retention_days)]) ;;
     retL (PDict [("statusCode", PInt 200); ("body", PStr body)]))
    (fun e => raiseL e).

(** The loop over the events of one session (lines 192-198). *)
Fixpoint delete_events (session_id : pyval) (events : list pyval) : L unit :=
  match events with
  | [] => retL tt
  | event :: rest =>
      event_id <: liftL (dict_get_default event "eventId" PNone) ;;
      request (DeleteEvent [("sessionId", session_id); ("eventId", event_id)]) ;;:
      delete_events session_id rest
  end.

(** The loop over the listed sessions (lines 179-198). *)
Fixpoint delete_sessions (sessions : list pyval) : L unit :=
  match sessions with
  | [] => retL tt
  | session :: rest =>
      session_id <: liftL (dict_get_default session "sessionId" PNone) ;;
      events_response <: request (ListEvents [("sessionId", session_id);
                                              ("maxResults", PInt 100)]) ;;
      events_obj <: liftL (dict_get_default events_response "events" (PList [])) ;;
      events <: liftL (py_iter events_obj) ;;
      delete_events session_id events ;;:
      delete_sessions rest
  end.

Definition cleanup_filter (environment : pyval) : dict :=
  [("filters", PList [PDict [("attributeName", PStr "environment");
                             ("attributeValue", environment)]]);
   ("maxResults", PInt 100)].

(** [cleanup_agentcore_memory] (lines 138-215). *)
Definition cleanup_agentcore_memory (environment : pyval) : L pyval :=
  try_exceptL
    (try_exceptL
       (sessions_response <: request (ListSessions (cleanup_filter environment)) ;;
        sessions_obj <: liftL (dict_get_default sessions_response "sessions" (PList [])) ;;
        sessions <: liftL (py_iter sessions_obj) ;;
        delete_sessions sessions)
       (fun e => retL tt) ;;:
     body <: json_dumps
               (PDict [("message", PStr "AgentCore Memory cleanup completed");
                       ("environment", environment)]) ;;
     retL (PDict [("statusCode", PInt 200); ("body", PStr body)]))
    (fun e => raiseL e).

(** [handler] (lines 34-66).  Line 45 formats [json.dumps(event)] for the
    log before anything else, which raises on an event that cannot be
    serialized. *)
Definition handler (event context : pyval) : L pyval :=
  json_dumps event ;;:
  action <: liftL (dict_get_default event "action" (PStr "provision")) ;;
  config <: liftL (dict_get_default event "config" (PDict [])) ;;
  memory_retention_days <:
    liftL (dict_get_default config "memory_retention_days" (PInt MEMORY_RETENTION_DAYS)) ;;
  environment <: liftL (dict_get_default config "environment" (PStr ENVIRONMENT)) ;;
  if eq_str action "provision" then
    provision_agentcore_memory memory_retention_days environment
  else if eq_str action "cleanup" then
    cleanup_agentcore_memory environment
  else
    raiseL (ValueError ("Unsupported action: " ++ py_str action)).

(** ** Vocabulary of the setup properties *)

(** The action an event asks for. *)
Definition action_of (ev : dict) : pyval :=
  match dict_get ev "action" with
  | Some a => a
  | None => PStr "provision"
  end.

(** What both actions return. *)
Definition status_200 (body : pyval) : pyval :=
  PDict [("statusCode", PInt 200); ("body", PStr (json_text body))].

Definition provision_body (retention_days environment : pyval) : pyval :=
  PDict [("message", PStr "AgentCore Memory provisioned successfully");
         ("resourceName", PStr (resource_name environment));
         ("retentionDays", retention_days)].

Definition cleanup_body (environment : pyval) : pyval :=
  PDict [("message", PStr "AgentCore Memory cleanup completed");
         ("environment", environment)].

Definition list_events_call (session_id : pyval) : call :=
  ListEvents [("sessionId", session_id); ("maxResults", PInt 100)].

Definition delete_event_call (session_id event_id : pyval) : call :=
  DeleteEvent [("sessionId", session_id); ("eventId", event_id)].

(** The calls that remove the events [snd p] of the session [fst p], for
    each [p] in turn. *)
Definition deletion_calls (plan : list (pyval * list pyval)) : list call :=
  flat_map (fun p => list_events_call (fst p) :: map (delete_event_call (fst p)) (snd p))
           plan.

Definition is_removal (c : call) : Prop :=
  match c with
  | ListEvents _ | DeleteEvent _ => True
  | _ => False
  end.

Definition session_with_id (session id : pyval) : Prop :=
  exists d, session = PDict d /\ dict_get d "sessionId" = Some id.

Definition event_with_id (event id : pyval) : Prop :=
  exists d, event = PDict d /\ dict_get d "eventId" = Some id.

(** ** Facts *)

Lemma delete_events_appends (session_id : pyval) (events : list pyval) (log : list call) :
  exists o calls,
    delete_events session_id events log = (o, (log ++ calls)%list) /\
    Forall is_removal calls.
Proof.
  revert log. induction events as [|event rest IH]; intros log.
  - exists (Ok tt), []. split; [cbn; now rewrite app_nil_r | constructor].
  - cbn [delete_events]. unfold bindL at 1. unfold liftL at 1.
    destruct (dict_get_default event "eventId" PNone) as [event_id|e].
    + unfold bindL at 1. unfold request at 1.
      set (c := DeleteEvent [("sessionId", session_id); ("eventId", event_id)]).
      destruct (answer svc (List.length log) c) as [v|e].
      * destruct (IH (log ++ [c])%list) as (o & calls & Hrun & Hall).
        exists o, (c :: calls).
        split; [rewrite Hrun, <- app_assoc; reflexivity | constructor; [exact I | exact Hall]].
      * exists (Err (Std e)), [c]. split; [reflexivity | repeat constructor].
    + exists (Err (Std e)), []. split; [now rewrite app_nil_r | constructor].
Qed.

Lemma delete_sessions_appends (sessions : list pyval) (log : list call) :
  exists o calls,
    delete_sessions sessions log = (o, (log ++ calls)%list) /\
    Forall is_removal calls.
Proof.
  revert log. induction sessions as [|session rest IH]; intros log.
  - exists (Ok tt), []. split; [cbn; now rewrite app_nil_r | constructor].
  - cbn [delete_sessions]. unfold bindL at 1. unfold liftL at 1.
    destruct (dict_get_default session "sessionId" PNone) as [session_id|e];
      [|exists (Err (Std e)), []; split; [now rewrite app_nil_r | constructor]].
    unfold bindL at 1. unfold request at 1.
    set (c := ListEvents [("sessionId", session_id); ("maxResults", PInt 100)]).
    destruct (answer svc (List.length log) c) as [events_response|e];
      [|exists (Err (Std e)), [c]; split; [reflexivity | repeat constructor]].
    unfold bindL at 1. unfold liftL at 1.
    destruct (dict_get_default events_response "events" (PList [])) as [events_obj|e];
      [|exists (Err (Std e)), [c]; split; [reflexivity | repeat constructor]].
    unfold bindL at 1. unfold liftL at 1.
    destruct (py_iter events_obj) as [events|e];
      [|exists (Err (Std e)), [c]; split; [reflexivity | repeat constructor]].
    destruct (delete_events_appends session_id events (log ++ [c])%list)
      as (o1 & calls1 & Hrun1 & Hall1).
    unfold bindL at 1. rewrite Hrun1.
    destruct o1 as [[]|e].
    + destruct (IH ((log ++ [c]) ++ calls1)%list) as (o2 & calls2 & Hrun2 & Hall2).
      exists o2, (c :: calls1 ++ calls2)%list. split.
      * rewrite Hrun2. f_equal. rewrite <- !app_assoc. reflexivity.
      * constructor; [exact I|]. apply Forall_app. now split.
    + exists (Err e), (c :: calls1)%list. split.
      * f_equal. rewrite <- app_assoc. reflexivity.
      * constructor; [exact I | exact Hall1].
Qed.

Lemma delete_events_all (session_id : pyval) (events ids : list pyval) :
  Forall2 event_with_id events ids ->
  (forall i args, exists v, answer svc i (DeleteEvent args) = Returned v) ->
  forall log,
    delete_events session_id events log
    = (Ok tt, (log ++ map (delete_event_call session_id) ids)%list).
Proof.
  intros Hev Hdel. induction Hev as [|event id events ids (d & -> & Hid) _ IH]; intros log.
  - cbn. now rewrite app_nil_r.
  - cbn [delete_events]. unfold bindL at 1. unfold liftL at 1.
    cbn [dict_get_default]. rewrite Hid.
    unfold bindL at 1. unfold request at 1.
    destruct (Hdel (List.length log) [("sessionId", session_id); ("eventId", id)]) as (v & ->).
    rewrite IH. cbn [map]. rewrite <- app_assoc. reflexivity.
Qed.

Lemma delete_sessions_all (sessions : list pyval) (plan : list (pyval * list pyval)) :
  Forall2 (fun session p => session_with_id session (fst p)) sessions plan ->
  (forall i p, In p plan ->
     exists er events,
       answer svc i (list_events_call (fst p)) = Returned (PDict er) /\
       dict_get er "events" = Some (PList events) /\
       Forall2 event_with_id events (snd p)) ->
  (forall i args, exists v, answer svc i (DeleteEvent args) = Returned v) ->
  forall log,
    delete_sessions sessions log = (Ok tt, (log ++ deletion_calls plan)%list).
Proof.
  intros Hs Hlist Hdel.
  induction Hs as [|session p sessions plan (d & -> & Hid) _ IH]; intros log.
  - cbn. now rewrite app_nil_r.
  - cbn [delete_sessions]. unfold bindL at 1. unfold liftL at 1.
    cbn [dict_get_default]. rewrite Hid.
    unfold bindL at 1. unfold request at 1.
    destruct (Hlist (List.length log) p (or_introl eq_refl)) as (er & events & Her & Hev & Hids).
    unfold list_events_call in Her. rewrite Her.
    unfold bindL at 1. unfold liftL at 1. cbn [dict_get_default]. rewrite Hev.
    unfold bindL at 1. unfold liftL at 1. cbn [py_iter].
    unfold bindL at 1. rewrite (delete_events_all (fst p) events (snd p) Hids Hdel).
    rewrite IH.
    + unfold deletion_calls. cbn [flat_map]. unfold list_events_call.
      f_equal. rewrite <- !app_assoc. reflexivity.
    + intros i q Hq. apply Hlist. now right.
Qed.

(** ** Properties of the setup function *)

(** X18. For an event that is a serializable dict whose [config], when
    present, is a dict, and whose action (by default "provision") is
    neither "provision" nor "cleanup", [handler] raises [ValueError] naming
    the action and issues no call. *)
Theorem handler_rejects_unsupported_action (ev : dict) (context : pyval) (log : list call) :
  json_serializable (PDict ev) = true ->
  (dict_get ev "config" = None \/ exists c, dict_get ev "config" = Some (PDict c)) ->
  eq_str (action_of ev) "provision" = false ->
  eq_str (action_of ev) "cleanup" = false ->
  handler (PDict ev) context log
  = (Err (ValueError ("Unsupported action: " ++ py_str (action_of ev))), log).
Proof.
  intros Hjson Hcfg Hp Hc. unfold handler.
  unfold bindL at 1. unfold json_dumps at 1. rewrite Hjson. unfold retL at 1.
  unfold bindL at 1. unfold liftL at 1. cbn [dict_get_default].
  fold (action_of ev).
  assert (Ha : match dict_get ev "action" with
               | Some v => Returned v
               | None => Returned (PStr "provision")
               end = Returned (action_of ev)).
  { unfold action_of. now destruct (dict_get ev "action"). }
  rewrite Ha.
  unfold bindL at 1. unfold liftL at 1.
  destruct Hcfg as [Hnone | (c & Hsome)].
  - rewrite Hnone. unfold bindL, liftL. cbn. rewrite Hp, Hc. reflexivity.
  - rewrite Hsome. unfold bindL, liftL. cbn [dict_get_default].
    destruct (dict_get c "memory_retention_days"), (dict_get c "environment");
      rewrite Hp, Hc; reflexivity.
Qed.

(** X19. [provision_agentcore_memory], for a retention value that can be
    serialized, by what the service answers: when the probe
    [list_memory_records] succeeds, status 200 after that one call; when it
    fails with ResourceNotFoundException or AccessDeniedException, a second
    probe [list_sessions] decides, status 200 when it succeeds and its own
    error when it fails; when the first probe fails otherwise, that error,
    unchanged, after one call. *)
Theorem provision_outcomes (retention_days environment : pyval) (log : list call) :
  json_serializable retention_days = true ->
  let first := answer svc (List.length log) (ListMemoryRecords probe_args) in
  let second := answer svc (S (List.length log)) (ListSessions probe_args) in
  let ok := Ok (status_200 (provision_body retention_days environment)) in
  (forall v, first = Returned v ->
     provision_agentcore_memory retention_days environment log
     = (ok, (log ++ [ListMemoryRecords probe_args])%list)) /\
  (forall e, first = Raised e ->
     str_in "ResourceNotFoundException" (str_of_exn e)
     || str_in "AccessDeniedException" (str_of_exn e) = false ->
     provision_agentcore_memory retention_days environment log
     = (Err (Std e), (log ++ [ListMemoryRecords probe_args])%list)) /\
  (forall e, first = Raised e ->
     str_in "ResourceNotFoundException" (str_of_exn e)
     || str_in "AccessDeniedException" (str_of_exn e) = true ->
     (forall v, second = Returned v ->
        provision_agentcore_memory retention_days environment log
        = (ok, (log ++ [ListMemoryRecords probe_args; ListSessions probe_args])%list)) /\
     (forall e', second = Raised e' ->
        provision_agentcore_memory retention_days environment log
        = (Err (Std e'),
           (log ++ [ListMemoryRecords probe_args; ListSessions probe_args])%list))).
Proof.
  intros Hjson first second ok. subst first second ok.
  assert (Hbody : json_serializable (provision_body retention_days environment) = true).
  { cbn. now rewrite Hjson. }
  assert (Hlen : List.length (log ++ [ListMemoryRecords probe_args]) = S (List.length log)).
  { rewrite length_app. cbn. lia. }
  assert (Hfinish : forall log',
    (body <: json_dumps (provision_body retention_days environment) ;;
     retL (PDict [("statusCode", PInt 200); ("body", PStr body)])) log'
    = (Ok (status_200 (provision_body retention_days environment)), log')).
  { intros log'. unfold bindL, json_dumps. rewrite Hbody. reflexivity. }
  unfold provision_agentcore_memory. fold (provision_body retention_days environment).
  split; [|split].
  - intros v Hv.
    unfold try_exceptL at 1. unfold bindL at 1. unfold try_exceptL at 1.
    unfold bindL at 1. unfold request at 1. rewrite Hv.
    unfold retL at 1. now rewrite Hfinish.
  - intros e He Hno.
    unfold try_exceptL at 1. unfold bindL at 1. unfold try_exceptL at 1.
    unfold bindL at 1. unfold request at 1. rewrite He.
    cbn [str_of_error]. rewrite Hno. reflexivity.
  - intros e He Hyes. split.
    + intros v Hv.
      unfold try_exceptL at 1. unfold bindL at 1. unfold try_exceptL at 1.
      unfold bindL at 1. unfold request at 1. rewrite He.
      cbn [str_of_error]. rewrite Hyes.
      unfold bindL at 1. unfold request at 1. rewrite Hlen, Hv.
      unfold retL at 1. rewrite Hfinish, <- app_assoc. reflexivity.
    + intros e' He'.
      unfold try_exceptL at 1. unfold bindL at 1. unfold try_exceptL at 1.
      unfold bindL at 1. unfold request at 1. rewrite He.
      cbn [str_of_error]. rewrite Hyes.
      unfold bindL at 1. unfold request at 1. rewrite Hlen, He'.
      rewrite <- app_assoc. reflexivity.
Qed.

(** X20. [cleanup_agentcore_memory], for an environment value that can be
    serialized, returns status 200 whatever the service answers: errors of
    the listing and of the deletions are swallowed.  Its first call lists
    the sessions of the environment, every later call lists or deletes
    events, and when the first call fails there is no later call. *)
Theorem cleanup_always_reports_success (environment : pyval) (log : list call) :
  json_serializable environment = true ->
  exists calls,
    cleanup_agentcore_memory environment log
    = (Ok (status_200 (cleanup_body environment)),
       (log ++ ListSessions (cleanup_filter environment) :: calls)%list) /\
    Forall is_removal calls /\
    (forall e, answer svc (List.length log) (ListSessions (cleanup_filter environment))
               = Raised e -> calls = []).
Proof.
  intros Hjson.
  assert (Hbody : json_serializable (cleanup_body environment) = true).
  { cbn. now rewrite Hjson. }
  set (c := ListSessions (cleanup_filter environment)).
  assert (Hfinish : forall log',
    (body <: json_dumps (cleanup_body environment) ;;
     retL (PDict [("statusCode", PInt 200); ("body", PStr body)])) log'
    = (Ok (status_200 (cleanup_body environment)), log')).
  { intros log'. unfold bindL, json_dumps. rewrite Hbody. reflexivity. }
  unfold cleanup_agentcore_memory. fold (cleanup_body environment). fold c.
  unfold try_exceptL at 1. unfold bindL at 1. unfold try_exceptL at 1.
  unfold bindL at 1. unfold request at 1.
  destruct (answer svc (List.length log) c) as [sessions_response|e] eqn:Ea.
  - unfold bindL at 1. unfold liftL at 1.
    destruct (dict_get_default sessions_response "sessions" (PList [])) as [sessions_obj|e].
    + unfold bindL at 1. unfold liftL at 1.
      destruct (py_iter sessions_obj) as [sessions|e].
      * destruct (delete_sessions_appends sessions (log ++ [c])%list)
          as (o & calls & Hrun & Hall).
        rewrite Hrun. exists calls. split; [|split; [exact Hall | discriminate]].
        destruct o as [[]|e]; unfold retL at 1; rewrite Hfinish, <- app_assoc; reflexivity.
      * exists []. split; [|split; [constructor | discriminate]].
        unfold retL at 1. now rewrite Hfinish.
    + exists []. split; [|split; [constructor | discriminate]].
      unfold retL at 1. now rewrite Hfinish.
  - exists []. split; [|split; [constructor | reflexivity]].
    unfold retL at 1. now rewrite Hfinish.
Qed.

(** X21. On a service that lists the sessions [plan] for the environment,
    lists for each of them its events, and accepts every deletion,
    [cleanup_agentcore_memory] lists the events of each session in turn and
    deletes each of them, in order and once, and does nothing else. *)
Theorem cleanup_deletes_every_listed_event
    (environment : pyval) (log : list call)
    (sr : dict) (sessions : list pyval) (plan : list (pyval * list pyval)) :
  json_serializable environment = true ->
  answer svc (List.length log) (ListSessions (cleanup_filter environment))
  = Returned (PDict sr) ->
  dict_get sr "sessions" = Some (PList sessions) ->
  Forall2 (fun session p => session_with_id session (fst p)) sessions plan ->
  (forall i p, In p plan ->
     exists er events,
       answer svc i (list_events_call (fst p)) = Returned (PDict er) /\
       dict_get er "events" = Some (PList events) /\
       Forall2 event_with_id events (snd p)) ->
  (forall i args, exists v, answer svc i (DeleteEvent args) = Returned v) ->
  cleanup_agentcore_memory environment log
  = (Ok (status_200 (cleanup_body environment)),
     (log ++ ListSessions (cleanup_filter environment) :: deletion_calls plan)%list).
Proof.
  intros Hjson Ha Hsr Hs Hlist Hdel.
  assert (Hbody : json_serializable (cleanup_body environment) = true).
  { cbn. now rewrite Hjson. }
  unfold cleanup_agentcore_memory. fold (cleanup_body environment).
  unfold try_exceptL at 1. unfold bindL at 1. unfold try_exceptL at 1.
  unfold bindL at 1. unfold request at 1. rewrite Ha.
  unfold bindL at 1. unfold liftL at 1. cbn [dict_get_default]. rewrite Hsr.
  unfold bindL at 1. unfold liftL at 1. cbn [py_iter].
  rewrite (delete_sessions_all sessions plan Hs Hlist Hdel).
  unfold retL at 1. unfold bindL, json_dumps. rewrite Hbody.
  unfold retL. rewrite <- app_assoc. reflexivity.
Qed.

End Functions.

(** ** The setup properties on scenarios *)

Definition text_unused (v : pyval) : string := "<text>".

(** Every call fails. *)
Definition svc_down : service :=
  mkService (fun _ _ => Raised (mkExn Exception "ServiceUnavailableException")).

(** No memory records yet; sessions can be listed. *)
Definition svc_not_found : service :=
  mkService (fun _ c =>
    match c with
    | ListMemoryRecords _ => Raised (mkExn Exception "ResourceNotFoundException: no memory")
    | _ => Returned (PDict [])
    end).

(** Two sessions, with two events and one event. *)
Definition svc_two_sessions : service :=
  mkService (fun _ c =>
    match c with
    | ListSessions _ =>
        Returned (PDict [("sessions", PList [PDict [("sessionId", PStr "s-1")];
                                             PDict [("sessionId", PStr "s-2")]])])
    | ListEvents args =>
        match dict_get args "sessionId" with
        | Some sid =>
            if eq_str sid "s-1"
            then Returned (PDict [("events", PList [PDict [("eventId", PStr "e-1")];
                                                    PDict [("eventId", PStr "e-2")]])])
            else Returned (PDict [("events", PList [PDict [("eventId", PStr "e-3")]])])
        | None => Raised (mkExn Exception "ValidationException")
        end
    | _ => Returned (PDict [])
    end).

Definition two_sessions_plan : list (pyval * list pyval) :=
  [(PStr "s-1", [PStr "e-1"; PStr "e-2"]); (PStr "s-2", [PStr "e-3"])].

Lemma handler_rejects_unsupported_action_witness :
  handler svc_down 30 "dev" text_unused text_unused
          (PDict [("action", PStr "destroy")]) PNone []
  = (Err (ValueError "Unsupported action: destroy"), []).
Proof.
  apply (handler_rejects_unsupported_action svc_down 30 "dev" text_unused text_unused
           [("action", PStr "destroy")] PNone []); try reflexivity.
  left. reflexivity.
Defined.

Lemma provision_outcomes_witness :
  provision_agentcore_memory svc_not_found text_unused text_unused (PInt 30) (PStr "dev") []
  = (Ok (status_200 text_unused (provision_body text_unused (PInt 30) (PStr "dev"))),
     [ListMemoryRecords probe_args; ListSessions probe_args]) /\
  provision_agentcore_memory svc_down text_unused text_unused (PInt 30) (PStr "dev") []
  = (Err (Std (mkExn Exception "ServiceUnavailableException")),
     [ListMemoryRecords probe_args]).
Proof.
  split.
  - destruct (provision_outcomes svc_not_found text_unused text_unused
                (PInt 30) (PStr "dev") [] eq_refl) as (_ & _ & H).
    destruct (H (mkExn Exception "ResourceNotFoundException: no memory") eq_refl eq_refl)
      as (Hok & _).
    apply (Hok (PDict [])). reflexivity.
  - destruct (provision_outcomes svc_down text_unused text_unused
                (PInt 30) (PStr "dev") [] eq_refl) as (_ & H & _).
    apply (H (mkExn Exception "ServiceUnavailableException")); reflexivity.
Defined.

Lemma cleanup_always_reports_success_witness :
  exists calls,
    cleanup_agentcore_memory svc_down text_unused (PStr "dev") []
    = (Ok (status_200 text_unused (cleanup_body (PStr "dev"))),
       ListSessions (cleanup_filter (PStr "dev")) :: calls) /\
    Forall is_removal calls /\
    (forall e, answer svc_down 0 (ListSessions (cleanup_filter (PStr "dev"))) = Raised e ->
               calls = []).
Proof.
  apply (cleanup_always_reports_success svc_down text_unused (PStr "dev") []).
  reflexivity.
Defined.

Lemma cleanup_deletes_every_listed_event_witness :
  cleanup_agentcore_memory svc_two_sessions text_unused (PStr "dev") []
  = (Ok (status_200 text_unused (cleanup_body (PStr "dev"))),
     [ListSessions (cleanup_filter (PStr "dev"));
      list_events_call (PStr "s-1");
      delete_event_call (PStr "s-1") (PStr "e-1");
      delete_event_call (PStr "s-1") (PStr "e-2");
      list_events_call (PStr "s-2");
      delete_event_call (PStr "s-2") (PStr "e-3")]).
Proof.
  apply (cleanup_deletes_every_listed_event svc_two_sessions text_unused (PStr "dev") []
           [("sessions", PList [PDict [("sessionId", PStr "s-1")];
                                PDict [("sessionId", PStr "s-2")]])]
           [PDict [("sessionId", PStr "s-1")]; PDict [("sessionId", PStr "s-2")]]
           two_sessions_plan); try reflexivity.
  - repeat constructor; eexists; split; reflexivity.
  - intros i p [<- | [<- | []]].
    + exists [("events", PList [PDict [("eventId", PStr "e-1")];
                                PDict [("eventId", PStr "e-2")]])],
             [PDict [("eventId", PStr "e-1")]; PDict [("eventId", PStr "e-2")]].
      repeat split. repeat constructor; eexists; split; reflexivity.
    + exists [("events", PList [PDict [("eventId", PStr "e-3")]])],
             [PDict [("eventId", PStr "e-3")]].
      repeat split. repeat constructor; eexists; split; reflexivity.
  - intros i args. exists (PDict []). reflexivity.
Defined.

End Setup.
